(** * url_scraper_agent: the scrape, analyze, publish pipeline and the
      interactive session of [scraper.py] and [objectwire/cli.py]

    A shallow embedding of the two Python sources.  Python values that the
    program only stores and forwards keep their Python shape: [str] is a
    sequence of characters ([string], one [ascii] per character: the code
    points U+0000 to U+00FF, on which the character classes below are
    Python's), [float] is a binary64 ([float]), a [dict] with string keys is
    a [gmap string], a [list] is a [list].  Library calls whose code is
    outside the repository ([json.loads], [requests], [feedparser],
    [BeautifulSoup], [openai], the XML parser, the clipboard and the prompt)
    are parameters of the functions that call them: a raised exception is
    [None], a returned value is [Some].  Writing to the console (the
    console library's [print] and [print_json], and [print_xml]) is taken
    to succeed. *)

From Stdlib Require Import ZArith Ascii Floats Bool Lia.
From stdpp Require Import gmap strings list fin_maps.

Set Warnings "-register-all,-inexact-float".
Local Open Scope Z_scope.

(** ** Python [str] operations used by the program *)
Module Str.

(** [len(s)] *)
Definition len (s : string) : Z := Z.of_nat (String.length s).

Fixpoint take (n : nat) (s : string) : string :=
  match n, s with
  | S n', String c s' => String c (take n' s')
  | _, _ => ""
  end.

Fixpoint drop (n : nat) (s : string) : string :=
  match n, s with
  | S n', String _ s' => drop n' s'
  | _, _ => s
  end.

(** A slice bound as Python normalises it: a negative bound counts from
    the end, and every bound is clamped to [0 .. len]. *)
Definition clamp (n i : Z) : Z :=
  if i <? 0 then Z.max 0 (i + n) else Z.min i n.

(** [s[lo:hi]] *)
Definition slice (s : string) (lo hi : Z) : string :=
  let lo' := clamp (len s) lo in
  let hi' := clamp (len s) hi in
  take (Z.to_nat (hi' - lo')) (drop (Z.to_nat lo') s).

(** [s[:n]] *)
Definition upto (s : string) (n : Z) : string := slice s 0 n.

(** [s.find(c)] for a one-character needle: the least index, or [-1]. *)
Fixpoint find (c : ascii) (s : string) : Z :=
  match s with
  | "" => -1
  | String a s' =>
      if Ascii.eqb a c then 0
      else let i := find c s' in if i <? 0 then -1 else i + 1
  end.

(** [s.rfind(c)] for a one-character needle: the greatest index, or [-1]. *)
Fixpoint rfind (c : ascii) (s : string) : Z :=
  match s with
  | "" => -1
  | String a s' =>
      let i := rfind c s' in
      if 0 <=? i then i + 1 else if Ascii.eqb a c then 0 else -1
  end.

(** [s.startswith(p)] *)
Definition startswith (s p : string) : bool := String.prefix p s.

(** [sub in s] *)
Fixpoint contains (sub s : string) : bool :=
  String.prefix sub s ||
  match s with
  | "" => false
  | String _ s' => contains sub s'
  end.

(** Whitespace as [str.strip], [str.split] and [str.isspace] see it:
    U+0009 to U+000D, U+001C to U+0020, U+0085 (next line) and U+00A0
    (no-break space). *)
Definition is_space (c : ascii) : bool :=
  let n := N_of_ascii c in
  ((9 <=? n) && (n <=? 13) || (28 <=? n) && (n <=? 32)
   || (n =? 133) || (n =? 160))%N.

Fixpoint lstrip (s : string) : string :=
  match s with
  | "" => ""
  | String c s' => if is_space c then lstrip s' else s
  end.

Fixpoint rstrip (s : string) : string :=
  match s with
  | "" => ""
  | String c s' =>
      match rstrip s' with
      | "" => if is_space c then "" else String c ""
      | r => String c r
      end
  end.

(** [s.strip()] *)
Definition strip (s : string) : string := rstrip (lstrip s).

(** The lower case of a character: the capital letters are [A] to [Z]
    and U+00C0 to U+00DE without the multiplication sign U+00D7; each has
    its small letter 32 places further. *)
Definition lower_char (c : ascii) : ascii :=
  let n := N_of_ascii c in
  if ((65 <=? n) && (n <=? 90)
      || (192 <=? n) && (n <=? 222) && negb (n =? 215))%N
  then ascii_of_N (n + 32) else c.

(** [s.lower()] *)
Fixpoint lower (s : string) : string :=
  match s with
  | "" => ""
  | String c s' => String (lower_char c) (lower s')
  end.

Definition flush (cur : option string) : list string :=
  match cur with Some w => [w] | None => [] end.

Fixpoint split_go (cur : option string) (s : string) : list string :=
  match s with
  | "" => flush cur
  | String c s' =>
      if is_space c then flush cur ++ split_go None s'
      else split_go (Some (from_option (fun w => w +:+ String c "")
                                       (String c "") cur)) s'
  end.

(** [s.split()]: the maximal runs of non-whitespace characters. *)
Definition split (s : string) : list string := split_go None s.

(** [sep.join(l)] *)
Definition join (sep : string) (l : list string) : string :=
  String.concat sep l.

(** The value of a decimal digit, [0] to [9]; [int] reads no other
    character as a digit. *)
Definition digit (c : ascii) : option Z :=
  let n := N_of_ascii c in
  if ((48 <=? n) && (n <=? 57))%N then Some (Z.of_N n - 48) else None.

(** A digit as [str.isdigit] sees it: [0] to [9], and the superscripts
    U+00B2, U+00B3 and U+00B9, which are digits but not decimal ones. *)
Definition is_digit_char (c : ascii) : bool :=
  let n := N_of_ascii c in
  ((48 <=? n) && (n <=? 57) || (n =? 178) || (n =? 179) || (n =? 185))%N.

Fixpoint all_digits (s : string) : bool :=
  match s with
  | "" => true
  | String c s' => is_digit_char c && all_digits s'
  end.

(** [s.isdigit()]: at least one character, and every character a digit. *)
Definition isdigit (s : string) : bool :=
  negb (String.eqb s "") && all_digits s.

Fixpoint int_go (acc : Z) (s : string) : option Z :=
  match s with
  | "" => Some acc
  | String c s' =>
      match digit c with
      | Some d => int_go (10 * acc + d) s'
      | None => None
      end
  end.

(** The interpreter's limit on the digits of a decimal string that [int]
    converts (its default, [sys.int_info.default_max_str_digits]). *)
Definition int_max_str_digits : nat := 4300.

(** [int(s)] on a word without sign, space or underscore, as the program
    calls it (after [isdigit]): the value, or [ValueError] ([None]) for
    an empty word, for a character that is not a decimal digit, and for
    more digits than the limit. *)
Definition int (s : string) : option Z :=
  if String.eqb s "" then None
  else if (int_max_str_digits <? String.length s)%nat then None
  else int_go 0 s.

(** [s.replace(a, b)] for one-character [a] and [b]. *)
Fixpoint replace_char (a b : ascii) (s : string) : string :=
  match s with
  | "" => ""
  | String c s' => String (if Ascii.eqb c a then b else c) (replace_char a b s')
  end.

End Str.

(** ** Python values

    What [json.loads] and [Response.json] return. *)
Inductive pyval :=
| PyNone
| PyBool (b : bool)
| PyInt (z : Z)
| PyFloat (f : float)
| PyStr (s : string)
| PyList (l : list pyval)
| PyDict (m : gmap string pyval).

Module Py.

(** Truth value of an object, as [if], [not] and [or] test it. *)
Definition truthy (v : pyval) : bool :=
  match v with
  | PyNone => false
  | PyBool b => b
  | PyInt z => negb (z =? 0)
  | PyFloat f => negb (PrimFloat.eqb f 0)
  | PyStr s => negb (String.eqb s "")
  | PyList l => negb (Nat.eqb (length l) 0)
  | PyDict m => negb (Nat.eqb (size m) 0)
  end.

(** [a or b] *)
Definition or (a b : pyval) : pyval := if truthy a then a else b.

(** [d.get(k)] and [d.get(k, dflt)] *)
Definition get (d : gmap string pyval) (k : string) : pyval :=
  default PyNone (d !! k).
Definition get_or (d : gmap string pyval) (k : string) (dflt : pyval) : pyval :=
  default dflt (d !! k).

(** [float(n)] on an [int]: the nearest binary64, [OverflowError] when
    that is out of range. *)
Definition float_of_int (z : Z) : option float :=
  let f := SF2Prim (SpecFloat.binary_normalize prec emax z 0 false) in
  if PrimFloat.is_infinity f then None else Some f.

Section Float.
(** [float(s)] on a [str] is the interpreter's parser. *)
Variable float_of_str : string -> option float.

(** [float(v)] *)
Definition float (v : pyval) : option float :=
  match v with
  | PyBool b => Some (if b then 1%float else 0%float)
  | PyInt z => float_of_int z
  | PyFloat f => Some f
  | PyStr s => float_of_str s
  | PyNone | PyList _ | PyDict _ => None
  end.
End Float.

(** Validation of a [str] field by the model class (pydantic 2, which
    [model_dump] requires): only a [str] passes. *)
Definition as_str (v : pyval) : option string :=
  match v with PyStr s => Some s | _ => None end.

(** Validation of a [list[str]] field. *)
Definition as_str_list (v : pyval) : option (list string) :=
  match v with PyList l => mapM as_str l | _ => None end.


End Py.

(** ** The parsed document

    [BeautifulSoup(r.content, "html.parser")] is the library's parser; the
    model starts from the tree it returns: elements, and as text nodes
    the strings that [get_text] collects (comments, declarations and the
    other strings that the library sets apart and [get_text] passes over
    are left out). *)
Inductive node :=
| Text (s : string)
| Elem (tag : string) (children : list node).

Module Html.

(** [for tag in soup(names): tag.decompose()]: every element with one of
    the names is removed, with all it contains. *)
Fixpoint decompose (names : list string) (n : node) : list node :=
  match n with
  | Text _ => [n]
  | Elem t cs =>
      if bool_decide (t ∈ names) then []
      else [Elem t (concat (map (decompose names) cs))]
  end.

Definition decompose_all (names : list string) (soup : list node) : list node :=
  concat (map (decompose names) soup).

(** [soup.find(name)]: the first element of that name, in document order. *)
Fixpoint find_in (name : string) (n : node) : option node :=
  match n with
  | Text _ => None
  | Elem t cs =>
      if String.eqb t name then Some n
      else (fix first (l : list node) : option node :=
              match l with
              | [] => None
              | c :: l' =>
                  match find_in name c with
                  | Some r => Some r
                  | None => first l'
                  end
              end) cs
  end.

Fixpoint find (name : string) (soup : list node) : option node :=
  match soup with
  | [] => None
  | n :: soup' =>
      match find_in name n with
      | Some r => Some r
      | None => find name soup'
      end
  end.

(** The strings below a node, in document order. *)
Fixpoint strings (n : node) : list string :=
  match n with
  | Text s => [s]
  | Elem _ cs => concat (map strings cs)
  end.

(** [n.get_text(sep, strip=True)]: each string stripped, the empty ones
    dropped, the rest joined by [sep]. *)
Definition get_text (sep : string) (n : node) : string :=
  Str.join sep
    (filter (fun s => s ≠ "") (map Str.strip (strings n))).

End Html.

Definition newline : string := String "010"%char "".

Definition page1 : list node :=
  [Elem "html"
     [Elem "head" [Elem "title" [Text " Example Domain "]];
      Elem "body"
        [Elem "nav" [Text "menu"];
         Elem "p" [Text "first"; Elem "b" [Text " second "]];
         Elem "script" [Text "var x;"]]]].

(** What [feedparser.parse] returns, as [parse_rss] reads it: the [bozo]
    flag, and the feed and its entries as [get] sees them (a value of the
    keys read here is a string). *)
Record ParsedFeed := {
  bozo : bool;
  feed : gmap string string;
  entries : list (gmap string string);
}.

(** ** The world outside the repository

    One record for the library calls and services the two programs use.
    [None] stands for a raised exception (for the HTTP calls: any
    [RequestException], which includes a failed [raise_for_status]). *)
Record World := {
  (** [urlparse(url).netloc] *)
  netloc : string -> string;
  (** [requests.get(url, ...)] followed by [raise_for_status] and the parse
      of [r.content], at the given attempt (0, 1, 2). *)
  http_get : string -> nat -> option (list node);
  (** [openai and OPENAI_API_KEY]: [None] when no client is configured,
      otherwise the completion for a user message: the content of its first
      choice, or an exception. *)
  openai : option (string -> option string);
  (** [json.loads] *)
  json_loads : string -> option pyval;
  (** [float] on a [str] *)
  float_of_str : string -> option float;
  (** [requests.get(BLOCKCHAIN_URL + "/health")]: the status code. *)
  health : option Z;
  (** [requests.post(BLOCKCHAIN_URL + "/ai/events", json=payload)] followed
      by [raise_for_status] and [resp.json()]. *)
  http_post : pyval -> option pyval;
  (** [feedparser.parse(url)] *)
  feedparser_parse : string -> option ParsedFeed;
  (** [subprocess.run(['powershell', '-command', 'Get-Clipboard'], ...)]:
      the return code and the captured output. *)
  get_clipboard : option (Z * string);
  (** Whether [dict_to_xml(output, root_name="prediction_event")] returns
      its text where the copy branch calls it: it writes the tree with
      [ET.tostring] and reads it back with [minidom.parseString], which
      raises [ExpatError] ([false]) on a character that XML does not allow. *)
  dict_to_xml_returns : gmap string pyval -> bool;
  (** [copy_to_clipboard(text)] on the text of the event dump ([true]: the
      XML text, [false]: the JSON text): the return code of [clip], [None]
      for an exception (it catches all). *)
  clip : bool -> gmap string pyval -> option Z;
}.

(** The dict that [scrape] and [scrape_url] return. *)
Record ScrapedPage := {
  page_title : string;
  page_content : string;
  page_url : string;
  page_domain : string;
}.

(** What a call does: it returns a value, or an exception leaves it that no
    handler of the program catches. *)
Inductive outcome (A : Type) :=
| Returns (a : A)
| Raises.
Arguments Returns {A} a.
Arguments Raises {A}.

(** ** scraper.py *)
Module Scraper.

Record PredictionEvent := {
  title : string;
  description : string;
  category : string;
  options : list string;
  confidence : float;
  source_url : string;
  resolution_date : string;
}.

Definition noise : list string :=
  ["script"; "style"; "nav"; "header"; "footer"; "aside"].

Section Program.
Variable w : World.

(** The retry loop of [scrape]: [for attempt in range(3)], leaving at the
    first response, giving up when the attempt numbered 2 fails. *)
Fixpoint fetch (url : string) (attempt left : nat) : option (list node) :=
  match left with
  | O => None
  | S left' =>
      match http_get w url attempt with
      | Some r => Some r
      | None => if Nat.eqb attempt 2 then None else fetch url (S attempt) left'
      end
  end.

(** [soup.find('article') or soup.find('main') or soup.body] *)
Definition main_of (soup : list node) : option node :=
  match Html.find "article" soup with
  | Some a => Some a
  | None =>
      match Html.find "main" soup with
      | Some m => Some m
      | None => Html.find "body" soup
      end
  end.

Definition title_of (soup : list node) : string :=
  match Html.find "title" soup with
  | Some t => Html.get_text "" t
  | None => "Untitled"
  end.

Definition content_of (soup : list node) : string :=
  match main_of soup with
  | Some m => Str.upto (Html.get_text newline m) 5000
  | None => ""
  end.

(** [scrape]: what it returns. What it writes before it returns [None]
    is [scrape_stderr] below. *)
Definition scrape (url : string) : option ScrapedPage :=
  match fetch url 0 3 with
  | None => None
  | Some r =>
      let soup := Html.decompose_all noise r in
      let title := title_of soup in
      let content := content_of soup in
      if Str.len content <? 100 then None
      else Some {| page_title := title; page_content := content;
                   page_url := url; page_domain := netloc w url |}
  end.

(** The user message of the completion request. *)
Definition user_message (scraped : ScrapedPage) : string :=
  "Title: " +:+ page_title scraped +:+ newline +:+ newline +:+
  "Content: " +:+ Str.upto (page_content scraped) 2000.

(** [text[start:end]] when [start >= 0 and end > start], with
    [start = text.find('{')] and [end = text.rfind('}') + 1]. *)
Definition json_span (text : string) : option string :=
  let start := Str.find "{" text in
  let end_ := Str.rfind "}" text + 1 in
  if (0 <=? start) && (start <? end_) then Some (Str.slice text start end_)
  else None.

Definition default_date : string := "2025-12-31T23:59:00-05:00".

(** The body of the [try] from [text] on: [Some] is the event it returns,
    [None] is an exception (all are caught) or the [if] not taken; both
    continue at the fallback. *)
Definition from_response (scraped : ScrapedPage) (text : string)
  : option PredictionEvent :=
  span ← json_span text;
  loaded ← json_loads w span;
  data ← match loaded with PyDict d => Some d | _ => None end;
  let title_v := Py.get_or data "title"
    (PyStr ("Prediction: " +:+ Str.upto (page_title scraped) 60 +:+ "?")) in
  let description_v := Py.get_or data "description"
    (PyStr (Str.upto (page_content scraped) 200)) in
  let category_v := Py.get_or data "category" (PyStr "general") in
  let options_v := Py.get_or data "options" (PyList [PyStr "Yes"; PyStr "No"]) in
  confidence_f ← Py.float (float_of_str w)
                   (Py.get_or data "confidence" (PyFloat 0.7));
  let date_v := Py.get_or data "resolution_date" (PyStr default_date) in
  title_s ← Py.as_str title_v;
  description_s ← Py.as_str description_v;
  category_s ← Py.as_str category_v;
  options_l ← Py.as_str_list options_v;
  date_s ← Py.as_str date_v;
  Some {| title := title_s; description := description_s;
          category := category_s; options := options_l;
          confidence := confidence_f; source_url := page_url scraped;
          resolution_date := date_s |}.

(** The [try] block of [analyze]. *)
Definition from_openai (scraped : ScrapedPage) : option PredictionEvent :=
  chat ← openai w;
  text ← chat (user_message scraped);
  from_response scraped text.

Definition fallback (scraped : ScrapedPage) : PredictionEvent :=
  {| title := "Will '" +:+ Str.upto (page_title scraped) 50 +:+
              "' predictions come true?";
     description := "Based on: " +:+ page_title scraped;
     category := "general";
     options := ["Yes"; "No"; "Partially"];
     confidence := 0.5;
     source_url := page_url scraped;
     resolution_date := default_date |}.

Definition analyze (scraped : ScrapedPage) : PredictionEvent :=
  match from_openai scraped with
  | Some event => event
  | None => fallback scraped
  end.

(** [event.model_dump()] *)
Definition model_dump (event : PredictionEvent) : gmap string pyval :=
  list_to_map
    [("title", PyStr (title event));
     ("description", PyStr (description event));
     ("category", PyStr (category event));
     ("options", PyList (PyStr <$> options event));
     ("confidence", PyFloat (confidence event));
     ("source_url", PyStr (source_url event));
     ("resolution_date", PyStr (resolution_date event))].

Definition payload (event : PredictionEvent) : pyval :=
  PyDict (list_to_map
    [("source", PyDict (list_to_map
        [("domain", PyStr (netloc w (source_url event)));
         ("url", PyStr (source_url event))]));
     ("event", PyDict (model_dump event))]).

(** [data.get('id') or data.get('market_id') or data.get('event_id')] *)
Definition identifier (data : gmap string pyval) : pyval :=
  Py.or (Py.or (Py.get data "id") (Py.get data "market_id"))
        (Py.get data "event_id").

(** [post_to_blockchain]: [Returns PyNone] is its [return None]; a response
    body that is not an object makes [data.get] raise outside the handler.
    What it writes before a [return None] is [post_stderr] below. *)
Definition post_to_blockchain (event : PredictionEvent) : outcome pyval :=
  match health w with
  | None => Returns PyNone
  | Some status =>
      if negb (status =? 200) then Returns PyNone
      else
        match http_post w (payload event) with
        | None => Returns PyNone
        | Some (PyDict data) => Returns (identifier data)
        | Some _ => Raises
        end
  end.

(** What the program writes, by its content (the text of an exception,
    which some lines end with, is left out): the lines of [scrape],
    [analyze], [post_to_blockchain] and [main] on the error stream, and on
    the standard output the event as JSON or as text, with the market id
    when there is one. *)
Inductive printed :=
| ScrapeFailed
| ContentTooShort
| OpenAIError
| NotHealthy (status : Z)
| BlockchainError
| FailedToPost
| JsonDump (output : gmap string pyval)
| TextReport (event : PredictionEvent) (market_id : option pyval).

(** What [scrape] writes on the error stream: a line when the last
    attempt fails, a line when the content is too short. *)
Definition scrape_stderr (url : string) : list printed :=
  match fetch url 0 3 with
  | None => [ScrapeFailed]
  | Some r =>
      if Str.len (content_of (Html.decompose_all noise r)) <? 100
      then [ContentTooShort] else []
  end.

(** What [analyze] writes on the error stream: a line when an exception
    is raised in the [try] (by the request, by [json.loads], by [data.get]
    on a value that is not an object, by the constructor); nothing when
    there is no client, when the [if] on the braces is not taken, or when
    the [try] returns the event. *)
Definition analyze_stderr (scraped : ScrapedPage) : list printed :=
  match openai w with
  | None => []
  | Some chat =>
      match chat (user_message scraped) with
      | None => [OpenAIError]
      | Some text =>
          match json_span text with
          | None => []
          | Some _ =>
              match from_response scraped text with
              | Some _ => []
              | None => [OpenAIError]
              end
          end
      end
  end.

(** What [post_to_blockchain] writes on the error stream. *)
Definition post_stderr (event : PredictionEvent) : list printed :=
  match health w with
  | None => [BlockchainError]
  | Some status =>
      if negb (status =? 200) then [NotHealthy status]
      else
        match http_post w (payload event) with
        | None => [BlockchainError]
        | Some _ => []
        end
  end.

(** [main] with its parsed arguments [url], [--post] and [--json]:
    [sys.exit(1)] after a failed scrape, else the exit status 0, with
    what was written up to there, in order; [Raises] when
    [post_to_blockchain] does. *)
Definition main (url : string) (post json : bool) : outcome (Z * list printed) :=
  match scrape url with
  | None => Returns (1, scrape_stderr url)
  | Some scraped =>
      let event := analyze scraped in
      let posted :=
        if post then
          match post_to_blockchain event with
          | Returns m =>
              Returns (m, post_stderr event ++
                          if Py.truthy m then [] else [FailedToPost])
          | Raises => Raises
          end
        else Returns (PyNone, []) in
      match posted with
      | Raises => Raises
      | Returns (market_id, warned) =>
          Returns (0, scrape_stderr url ++ analyze_stderr scraped ++ warned ++
            [if json then
               JsonDump (if Py.truthy market_id
                         then <["market_id" := market_id]> (model_dump event)
                         else model_dump event)
             else
               TextReport event (if Py.truthy market_id then Some market_id
                                 else None)])
      end
  end.

End Program.
End Scraper.

(** ** objectwire/cli.py *)
Module Cli.

Record PredictionEvent := {
  title : string;
  description : string;
  category : string;
  options : list string;
  confidence : float;
  source_url : string;
}.

Record FeedItem := {
  item_title : string;
  item_link : string;
  item_summary : string;
  item_published : string;
}.

(** The dict that [parse_rss] returns. *)
Record Feed := {
  feed_title : string;
  feed_link : string;
  feed_items : list FeedItem;
}.

Section Program.
Variable w : World.

(** [paste_from_clipboard] *)
Definition paste_from_clipboard : option string :=
  match get_clipboard w with
  | Some (code, out) => if code =? 0 then Some (Str.strip out) else None
  | None => None
  end.

(** [scrape_url]: the body of [scrape] in scraper.py, without its messages
    on the error stream. *)
Definition scrape_url (url : string) : option ScrapedPage :=
  match Scraper.fetch w url 0 3 with
  | None => None
  | Some r =>
      let soup := Html.decompose_all Scraper.noise r in
      let title := Scraper.title_of soup in
      let content := Scraper.content_of soup in
      if Str.len content <? 100 then None
      else Some {| page_title := title; page_content := content;
                   page_url := url; page_domain := netloc w url |}
  end.

(** The body of the [try] of [analyze] from [text] on. *)
Definition from_response (scraped : ScrapedPage) (text : string)
  : option PredictionEvent :=
  span ← Scraper.json_span text;
  loaded ← json_loads w span;
  data ← match loaded with PyDict d => Some d | _ => None end;
  let title_v := Py.get_or data "title"
    (PyStr ("Prediction: " +:+ Str.upto (page_title scraped) 60 +:+ "?")) in
  let description_v := Py.get_or data "description"
    (PyStr (Str.upto (page_content scraped) 200)) in
  let category_v := Py.get_or data "category" (PyStr "general") in
  let options_v := Py.get_or data "options" (PyList [PyStr "Yes"; PyStr "No"]) in
  confidence_f ← Py.float (float_of_str w)
                   (Py.get_or data "confidence" (PyFloat 0.7));
  title_s ← Py.as_str title_v;
  description_s ← Py.as_str description_v;
  category_s ← Py.as_str category_v;
  options_l ← Py.as_str_list options_v;
  Some {| title := title_s; description := description_s;
          category := category_s; options := options_l;
          confidence := confidence_f; source_url := page_url scraped |}.

Definition from_openai (scraped : ScrapedPage) : option PredictionEvent :=
  chat ← openai w;
  text ← chat (Scraper.user_message scraped);
  from_response scraped text.

Definition fallback (scraped : ScrapedPage) : PredictionEvent :=
  {| title := "Will '" +:+ Str.upto (page_title scraped) 50 +:+
              "' predictions come true?";
     description := "Based on: " +:+ page_title scraped;
     category := "general";
     options := ["Yes"; "No"; "Partially"];
     confidence := 0.5;
     source_url := page_url scraped |}.

Definition analyze (scraped : ScrapedPage) : PredictionEvent :=
  match from_openai scraped with
  | Some event => event
  | None => fallback scraped
  end.

(** [event.model_dump()] *)
Definition model_dump (event : PredictionEvent) : gmap string pyval :=
  list_to_map
    [("title", PyStr (title event));
     ("description", PyStr (description event));
     ("category", PyStr (category event));
     ("options", PyList (PyStr <$> options event));
     ("confidence", PyFloat (confidence event));
     ("source_url", PyStr (source_url event))].

Definition payload (event : PredictionEvent) : pyval :=
  PyDict (list_to_map
    [("source", PyDict (list_to_map
        [("domain", PyStr "objectwire-agent");
         ("url", PyStr (source_url event))]));
     ("event", PyDict (model_dump event))]).

(** [post_to_blockchain]: the decoded response, [None] on a request error. *)
Definition post_to_blockchain (event : PredictionEvent) : option pyval :=
  http_post w (payload event).

(** One entry of the feed as an item of the listing. *)
Definition item_of (entry : gmap string string) : FeedItem :=
  {| item_title := default "Untitled" (entry !! "title");
     item_link := default "" (entry !! "link");
     item_summary :=
       Str.upto (default (default "" (entry !! "description"))
                         (entry !! "summary")) 200;
     item_published := default "" (entry !! "published") |}.

Definition parse_rss (url : string) : option Feed :=
  match feedparser_parse w url with
  | None => None
  | Some parsed =>
      if bozo parsed && Nat.eqb (length (entries parsed)) 0 then None
      else Some {| feed_title := default "Unknown Feed" (feed parsed !! "title");
                   feed_link := default url (feed parsed !! "link");
                   feed_items := item_of <$> entries parsed |}
  end.

(** *** The interactive session *)

(** The loop's two variables. *)
Record Session := {
  last_event : option PredictionEvent;
  last_rss_items : list FeedItem;
}.

(** What [session.prompt] does: it returns a line, or raises. *)
Inductive prompt_result :=
| Line (s : string)
| KeyboardInterrupt
| EOFError.

(** What the loop prints, by its content. Layout, colours and the JSON
    and XML renderings are the console library's and the formatting
    helpers'; printing is taken to succeed. *)
Inductive message :=
| Goodbye
| Help
| Status (health_status : option Z)
| ScrapingArticle (n : Z) (title50 : string)
| FailedArticle
| JsonOf (output : gmap string pyval)
| XmlOf (output : gmap string pyval)
| TipFormats (n : Z)
| InvalidArticle (hi : nat)
| UsageScrape
| FailedScrape
| EventPanel (event : PredictionEvent)
| Posted
| EventId (id : pyval)
| CouldNotPost
| UsageRss
| FailedRss
| FeedTable (feed_name : string) (rows : list FeedItem)
| TipSelect (hi : nat)
| NoEventToPost
| PayloadPreview (p : pyval)
| Cancelled
| PostedId (id : pyval)
| FailedPost
| NoEventToCopy
| Copied (fmt : string)
| FailedCopy
| ClipboardEmpty
| Pasted (text : string)
| FeedDetected (feed_name : string)
| FailedParseUrl
| NotAUrl (text50 : string)
| FailedParseUrlNotRss
| UnknownCommand (action : string).

(** What one turn of the loop does to the outside, in order. A call
    stands for all the callee does, with the line that
    [post_to_blockchain] prints itself when the request fails. *)
Inductive effect :=
| Say (m : message)
| CallScrape (url : string)
| CallParseRss (url : string)
| CallPost (event : PredictionEvent)
| CallClipboardRead
| CallClip (xml : bool) (event : PredictionEvent).

(** How a turn ends: [continue] (or the end of the body), [break], or an
    exception that neither handler of the loop catches. *)
Inductive control := Continue | Break | Crash.

Record Step := {
  trace : list effect;
  after : Session;
  pending : list prompt_result;
  ctl : control;
}.

(** [result.get('id') or result.get('market_id') or result.get('event_id')] *)
Definition identifier (result : gmap string pyval) : pyval :=
  Py.or (Py.or (Py.get result "id") (Py.get result "market_id"))
        (Py.get result "event_id").

(** The report after the automatic post of the scrape, paste and
    bare-URL branches. *)
Definition report_post (result : option pyval) : list effect :=
  match result with
  | Some r =>
      if Py.truthy r then
        Say Posted ::
        match r with
        | PyDict d =>
            if Py.truthy (identifier d) then [Say (EventId (identifier d))]
            else []
        | _ => []
        end
      else [Say CouldNotPost]
  | None => [Say CouldNotPost]
  end.

(** Scrape, analyze, show and post, as the scrape, paste and bare-URL
    branches do it; they differ in the message of a failed scrape. *)
Definition scrape_and_post (st : Session) (url : string) (failed : message)
  : list effect * Session :=
  match scrape_url url with
  | None => ([CallScrape url; Say failed], st)
  | Some data =>
      let event := analyze data in
      ([CallScrape url; Say (EventPanel event); CallPost event]
         ++ report_post (post_to_blockchain event),
       {| last_event := Some event; last_rss_items := last_rss_items st |})
  end.

Definition has_items (f : option Feed) : option Feed :=
  match f with
  | Some fd => if Nat.eqb (length (feed_items fd)) 0 then None else Some fd
  | None => None
  end.

(** Article selection: the branch [if action.isdigit() and last_rss_items]. *)
Definition selection (st : Session) (action args : string)
  : list effect * Session * control :=
  match Str.int action with
  | None =>
      (* [int(action)] raises ValueError, which the loop does not catch *)
      ([], st, Crash)
  | Some article_num =>
  if (1 <=? article_num) && (article_num <=? Z.of_nat (length (last_rss_items st)))
  then
    match last_rss_items st !! Z.to_nat (article_num - 1) with
    | None => ([], st, Crash)
    | Some item =>
        let article_url := item_link item in
        let show_json := Str.contains "json" (Str.lower args) in
        let show_xml := Str.contains "xml" (Str.lower args) in
        let head := [Say (ScrapingArticle article_num (Str.upto (item_title item) 50));
                     CallScrape article_url] in
        match scrape_url article_url with
        | None => (head ++ [Say FailedArticle], st, Continue)
        | Some data =>
            let event := analyze data in
            let st' := {| last_event := Some event;
                          last_rss_items := last_rss_items st |} in
            let output := model_dump event in
            if show_json || show_xml then
              (head ++ (if show_json then [Say (JsonOf output)] else [])
                    ++ (if show_xml then [Say (XmlOf output)] else [])
                    ++ [Say (TipFormats article_num)],
               st', Continue)
            else
              (* the panel reads [last_event.resolution_date], which this
                 file's PredictionEvent does not have: AttributeError *)
              (head, st', Crash)
        end
    end
  else ([Say (InvalidArticle (length (last_rss_items st)))], st, Continue)
  end.

(** The [post] branch; it reads the confirmation from the prompt. *)
Definition post (st : Session) (inputs : list prompt_result) : Step :=
  match last_event st with
  | None => {| trace := [Say NoEventToPost]; after := st;
               pending := inputs; ctl := Continue |}
  | Some event =>
      let preview := [Say (PayloadPreview (payload event))] in
      match inputs with
      | [] | EOFError :: _ =>
          {| trace := preview ++ [Say Goodbye]; after := st;
             pending := tail inputs; ctl := Break |}
      | KeyboardInterrupt :: rest =>
          {| trace := preview; after := st; pending := rest; ctl := Continue |}
      | Line answer :: rest =>
          let confirm := Str.lower (Str.strip answer) in
          if negb (String.eqb confirm "y" || String.eqb confirm "yes") then
            {| trace := preview ++ [Say Cancelled]; after := st;
               pending := rest; ctl := Continue |}
          else
            let result := post_to_blockchain event in
            let report :=
              match result with
              | Some r =>
                  if Py.truthy r then
                    [Say (PostedId match r with
                                   | PyDict d => identifier d
                                   | _ => r
                                   end)]
                  else [Say FailedPost]
              | None => [Say FailedPost]
              end in
            {| trace := preview ++ [CallPost event] ++ report; after := st;
               pending := rest; ctl := Continue |}
      end
  end.

(** The [copy] branch. [dict_to_xml] is called outside every handler:
    when it raises, the loop ends there, before the clipboard is
    written. *)
Definition copy (st : Session) (args : string) : list effect * control :=
  match last_event st with
  | None => ([Say NoEventToCopy], Continue)
  | Some event =>
      let fmt := if String.eqb args "" then "json" else Str.lower args in
      let xml := String.eqb fmt "xml" in
      let output := model_dump event in
      if xml && negb (dict_to_xml_returns w output) then ([], Crash)
      else
        ([CallClip xml event;
          match clip w xml output with
          | Some code => if code =? 0 then Say (Copied fmt) else Say FailedCopy
          | None => Say FailedCopy
          end], Continue)
  end.

(** The [paste] branch. *)
Definition paste (st : Session) : list effect * Session :=
  match paste_from_clipboard with
  | None => ([CallClipboardRead; Say ClipboardEmpty], st)
  | Some clipboard_text =>
      if String.eqb clipboard_text "" then
        ([CallClipboardRead; Say ClipboardEmpty], st)
      else if Str.startswith clipboard_text "http://"
              || Str.startswith clipboard_text "https://" then
        let head := [CallClipboardRead; Say (Pasted clipboard_text);
                     CallParseRss clipboard_text] in
        match has_items (parse_rss clipboard_text) with
        | Some fd =>
            (head ++ [Say (FeedDetected (feed_title fd));
                      Say (FeedTable (feed_title fd) (take 3 (feed_items fd)))],
             st)
        | None =>
            let '(tr, st') := scrape_and_post st clipboard_text FailedParseUrl in
            (head ++ tr, st')
        end
      else ([CallClipboardRead; Say (NotAUrl (Str.upto clipboard_text 50))], st)
  end.

(** The last branch: a bare URL, or an unknown command. *)
Definition autodetect (st : Session) (cmd action : string)
  : list effect * Session :=
  if Str.startswith cmd "http://" || Str.startswith cmd "https://" then
    let url := cmd in
    match has_items (parse_rss url) with
    | Some fd =>
        let items := take 3 (feed_items fd) in
        ([CallParseRss url; Say (FeedDetected (feed_title fd));
          Say (FeedTable (feed_title fd) items); Say (TipSelect 3)],
         {| last_event := last_event st; last_rss_items := items |})
    | None =>
        let '(tr, st') := scrape_and_post st url FailedParseUrlNotRss in
        (CallParseRss url :: tr, st')
    end
  else ([Say (UnknownCommand action)], st).

(** The [rss] branch. *)
Definition rss (st : Session) (args : string) : list effect * Session :=
  if String.eqb args "" then ([Say UsageRss], st)
  else
    match parse_rss args with
    | None => ([CallParseRss args; Say FailedRss], st)
    | Some fd =>
        let items := take 15 (feed_items fd) in
        ([CallParseRss args; Say (FeedTable (feed_title fd) items);
          Say (TipSelect (length items))],
         {| last_event := last_event st; last_rss_items := items |})
    end.

(** One turn of the [while True] loop of [interactive_mode]: the prompt,
    then the dispatch on the line. An exhausted input is the end of input. *)
Definition turn (st : Session) (inputs : list prompt_result) : Step :=
  let done tr st' rest c :=
    {| trace := tr; after := st'; pending := rest; ctl := c |} in
  match inputs with
  | [] => done [Say Goodbye] st [] Break
  | EOFError :: rest => done [Say Goodbye] st rest Break
  | KeyboardInterrupt :: rest => done [] st rest Continue
  | Line raw :: rest =>
      let cmd := Str.strip raw in
      if String.eqb cmd "" then done [] st rest Continue
      else
        match Str.split cmd with
        | [] => done [] st rest Crash
        | first :: more =>
            let action := Str.lower first in
            let args := Str.join " " more in
            if Str.isdigit action && negb (Nat.eqb (length (last_rss_items st)) 0)
            then let '(tr, st', c) := selection st action args in done tr st' rest c
            else if bool_decide (action ∈ ["exit"; "quit"; "q"])
            then done [Say Goodbye] st rest Break
            else if String.eqb action "help" then done [Say Help] st rest Continue
            else if String.eqb action "status"
            then done [Say (Status (health w))] st rest Continue
            else if String.eqb action "scrape" then
              if String.eqb args "" then done [Say UsageScrape] st rest Continue
              else let '(tr, st') := scrape_and_post st args FailedScrape in
                   done tr st' rest Continue
            else if String.eqb action "rss"
            then let '(tr, st') := rss st args in done tr st' rest Continue
            else if String.eqb action "post" then post st rest
            else if bool_decide (action ∈ ["copy"; "c"])
            then let '(tr, c) := copy st args in done tr st rest c
            else if bool_decide (action ∈ ["paste"; "v"; "pv"])
            then let '(tr, st') := paste st in done tr st' rest Continue
            else let '(tr, st') := autodetect st cmd action in
                 done tr st' rest Continue
        end
  end.

(** [interactive_mode]: turns until a [break] or an uncaught exception.
    The result is the whole trace, the last session and how the loop
    ended; [None] when [fuel] turns did not end it. *)
Fixpoint interactive_mode (fuel : nat) (st : Session) (inputs : list prompt_result)
  : option (list effect * Session * control) :=
  match fuel with
  | O => None
  | S fuel' =>
      let s := turn st inputs in
      match ctl s with
      | Continue =>
          '(tr, st', c) ← interactive_mode fuel' (after s) (pending s);
          Some (trace s ++ tr, st', c)
      | c => Some (trace s, after s, c)
      end
  end.

(** *** The commands of the command line *)

(** What a command prints or does, in order. *)
Inductive report :=
| Shown (m : message)
| Posting (event : PredictionEvent)
| PostedPanel (event : PredictionEvent) (event_id : pyval)
| PostFailedPanel (event : PredictionEvent)
| FeedXml (fd : Feed)
| FeedJson (fd : Feed)
| Showing (shown total : Z).

(** How a command ends: it returns, it calls [sys.exit], or the
    confirmation prompt aborts. *)
Inductive ending :=
| Ends
| SysExit (code : Z)
| Abort.

(** [result.get('id') or result.get('market_id') or result.get('event_id')
    if isinstance(result, dict) else result] *)
Definition event_id_of (result : pyval) : pyval :=
  match result with
  | PyDict d => identifier d
  | _ => result
  end.

(** The command [scrape URL] with its flags; [confirm] is what
    [click.confirm] answers ([None]: it aborts). *)
Definition scrape (url : string) (post as_json as_xml yes : bool)
  (confirm : option bool) : list report * ending :=
  match scrape_url url with
  | None => ([Shown FailedScrape], SysExit 1)
  | Some data =>
      let event := analyze data in
      let output := model_dump event in
      if post then
        let preview := [Shown (PayloadPreview (payload event))] in
        let posting :=
          (preview ++
           [Posting event;
            match post_to_blockchain event with
            | Some r => if Py.truthy r then Shown (PostedId (event_id_of r))
                        else Shown FailedPost
            | None => Shown FailedPost
            end], Ends) in
        if yes then posting
        else
          match confirm with
          | None => (preview, Abort)
          | Some true => posting
          | Some false => (preview ++ [Shown Cancelled], SysExit 0)
          end
      else if as_xml then ([Shown (XmlOf output)], Ends)
      else if as_json then ([Shown (JsonOf output)], Ends)
      else
        ([Shown (EventPanel event); Posting event] ++
         match post_to_blockchain event with
         | Some r =>
             if Py.truthy r then
               Shown Posted ::
               match r with
               | PyDict d =>
                   if Py.truthy (identifier d) then [Shown (EventId (identifier d))]
                   else []
               | _ => []
               end
             else [Shown CouldNotPost]
         | None => [Shown CouldNotPost]
         end, Ends)
  end.



(** The directory that [show_banner] shows:
    [if len(cwd) > 35: cwd = "..." + cwd[-32:]]. *)
Definition banner_cwd (cwd : string) : string :=
  if 35 <? Str.len cwd then "..." +:+ Str.slice cwd (-32) (Str.len cwd)
  else cwd.

(** The tag that [dict_to_xml] makes of a key:
    [str(key).replace(" ", "_").replace("-", "_")]. *)
Definition xml_tag (key : string) : string :=
  Str.replace_char "-" "_" (Str.replace_char " " "_" key).

End Program.
End Cli.

(** * Definitions for the statements: samples, and the notions the
      properties are stated with *)

(** ** Documents

    Induction on a document tree, with the hypothesis for every child. *)
Definition node_induction (P : node -> Prop)
  (HT : forall s, P (Text s))
  (HE : forall t cs, Forall P cs -> P (Elem t cs)) : forall n, P n :=
  fix go (n : node) : P n :=
    match n with
    | Text s => HT s
    | Elem t cs =>
        HE t cs ((fix all (l : list node) : Forall P l :=
                    match l with
                    | [] => @List.Forall_nil _ P
                    | c :: l' => @List.Forall_cons _ P c l' (go c) (all l')
                    end) cs)
    end.

(** ** Sample worlds and inputs *)

Fixpoint repeat_char (c : ascii) (n : nat) : string :=
  match n with
  | O => ""
  | S n' => String c (repeat_char c n')
  end.

(** Nothing answers: no language model, no network, no clipboard. *)
Definition offline : World :=
  {| netloc := fun _ => "example.com";
     http_get := fun _ _ => None;
     openai := None;
     json_loads := fun _ => None;
     float_of_str := fun _ => None;
     health := None;
     http_post := fun _ => None;
     feedparser_parse := fun _ => None;
     get_clipboard := None;
     dict_to_xml_returns := fun _ => true;
     clip := fun _ _ => None |}.

Definition example_page : ScrapedPage :=
  {| page_title := "Example Domain";
     page_content := repeat_char "x" 850;
     page_url := "https://example.com/";
     page_domain := "example.com" |}.

(** A document with 120 characters of text in its body; its only title
    element is in the header, which goes with the noise. *)
Definition article_doc : list node :=
  [Elem "html"
     [Elem "body"
        [Elem "header" [Elem "title" [Text "in the header"]];
         Elem "p" [Text (repeat_char "a" 120)];
         Elem "footer" [Text "imprint"]]]].

(** The first request fails, the second one answers. *)
Definition flaky_web : World :=
  {| netloc := fun _ => "example.com";
     http_get := fun _ attempt =>
                   if Nat.eqb attempt 0 then None else Some article_doc;
     openai := None;
     json_loads := fun _ => None;
     float_of_str := fun _ => None;
     health := None;
     http_post := fun _ => None;
     feedparser_parse := fun _ => None;
     get_clipboard := None;
     dict_to_xml_returns := fun _ => true;
     clip := fun _ _ => None |}.

(** The no-break space, U+00A0. *)
Definition nbsp : string := String "160"%char "".

(** A body with 99 characters of text, and a paragraph that holds only a
    no-break space. *)
Definition padded_doc : list node :=
  [Elem "html"
     [Elem "body"
        [Elem "p" [Text (repeat_char "a" 99)];
         Elem "p" [Text nbsp]]]].

(** The web answers every request with the padded document. *)
Definition padded_web : World :=
  {| netloc := fun _ => "example.com";
     http_get := fun _ _ => Some padded_doc;
     openai := None;
     json_loads := fun _ => None;
     float_of_str := fun _ => None;
     health := None;
     http_post := fun _ => None;
     feedparser_parse := fun _ => None;
     get_clipboard := None;
     dict_to_xml_returns := fun _ => true;
     clip := fun _ _ => None |}.

(** ** The language-model path, step by step

    The defaults of the title and of the description on that path. *)
Definition title_default (scraped : ScrapedPage) : string :=
  "Prediction: " +:+ Str.upto (page_title scraped) 60 +:+ "?".
Definition description_default (scraped : ScrapedPage) : string :=
  Str.upto (page_content scraped) 200.

(** The object that the response of the language model parses to, when
    there is one. *)
Definition response_object (w : World) (scraped : ScrapedPage)
  : option (gmap string pyval) :=
  chat ← openai w;
  text ← chat (Scraper.user_message scraped);
  span ← Scraper.json_span text;
  loaded ← json_loads w span;
  match loaded with PyDict d => Some d | _ => None end.

(** Every supplied or defaulted field passes the validation of its type. *)
Definition validates (w : World) (scraped : ScrapedPage)
  (data : gmap string pyval) (with_date : bool) : bool :=
  bool_decide (is_Some (Py.as_str (Py.get_or data "title" (PyStr (title_default scraped)))))
  && bool_decide (is_Some (Py.as_str (Py.get_or data "description" (PyStr (description_default scraped)))))
  && bool_decide (is_Some (Py.as_str (Py.get_or data "category" (PyStr "general"))))
  && bool_decide (is_Some (Py.as_str_list (Py.get_or data "options" (PyList [PyStr "Yes"; PyStr "No"]))))
  && bool_decide (is_Some (Py.float (float_of_str w) (Py.get_or data "confidence" (PyFloat 0.7))))
  && (negb with_date
      || bool_decide (is_Some (Py.as_str (Py.get_or data "resolution_date" (PyStr Scraper.default_date))))).

(** The event that the constructor call makes of the response object. *)
Definition scraper_event_of (w : World) (scraped : ScrapedPage)
  (data : gmap string pyval) : option Scraper.PredictionEvent :=
  confidence_f ← Py.float (float_of_str w)
                   (Py.get_or data "confidence" (PyFloat 0.7));
  title_s ← Py.as_str (Py.get_or data "title" (PyStr (title_default scraped)));
  description_s ← Py.as_str (Py.get_or data "description"
                               (PyStr (description_default scraped)));
  category_s ← Py.as_str (Py.get_or data "category" (PyStr "general"));
  options_l ← Py.as_str_list (Py.get_or data "options"
                                (PyList [PyStr "Yes"; PyStr "No"]));
  date_s ← Py.as_str (Py.get_or data "resolution_date"
                        (PyStr Scraper.default_date));
  Some {| Scraper.title := title_s; Scraper.description := description_s;
          Scraper.category := category_s; Scraper.options := options_l;
          Scraper.confidence := confidence_f;
          Scraper.source_url := page_url scraped;
          Scraper.resolution_date := date_s |}.

Definition cli_event_of (w : World) (scraped : ScrapedPage)
  (data : gmap string pyval) : option Cli.PredictionEvent :=
  confidence_f ← Py.float (float_of_str w)
                   (Py.get_or data "confidence" (PyFloat 0.7));
  title_s ← Py.as_str (Py.get_or data "title" (PyStr (title_default scraped)));
  description_s ← Py.as_str (Py.get_or data "description"
                               (PyStr (description_default scraped)));
  category_s ← Py.as_str (Py.get_or data "category" (PyStr "general"));
  options_l ← Py.as_str_list (Py.get_or data "options"
                                (PyList [PyStr "Yes"; PyStr "No"]));
  Some {| Cli.title := title_s; Cli.description := description_s;
          Cli.category := category_s; Cli.options := options_l;
          Cli.confidence := confidence_f;
          Cli.source_url := page_url scraped |}.

(** ** Sample responses of the language model *)

(** The double quote. *)
Definition quote : string := String "034"%char "".

(** A [json.loads] that knows the texts of a table. *)
Definition loads_from (table : list (string * pyval)) (s : string) : option pyval :=
  snd <$> List.find (fun p => String.eqb (fst p) s) table.

(** A world whose language model answers [reply] to every message, and
    whose [json.loads] parses by [table]. *)
Definition llm_world (reply : string) (table : list (string * pyval)) : World :=
  {| netloc := fun _ => "example.com";
     http_get := fun _ _ => None;
     openai := Some (fun _ => Some reply);
     json_loads := loads_from table;
     float_of_str := fun _ => None;
     health := None;
     http_post := fun _ => None;
     feedparser_parse := fun _ => None;
     get_clipboard := None;
     dict_to_xml_returns := fun _ => true;
     clip := fun _ _ => None |}.

(** The object with one option, and a reply that wraps it in prose. *)
Definition one_option_json : string :=
  "{" +:+ quote +:+ "options" +:+ quote +:+ ": [" +:+ quote +:+ "Yes" +:+ quote +:+ "]}".
Definition one_option_world : World :=
  llm_world ("Here is the market: " +:+ one_option_json)
    [(one_option_json, PyDict {[ "options" := PyList [PyStr "Yes"] ]})].

(** An object with two options and nothing else. *)
Definition two_options_json : string :=
  "{" +:+ quote +:+ "options" +:+ quote +:+ ": [" +:+ quote +:+ "Up" +:+ quote
  +:+ ", " +:+ quote +:+ "Down" +:+ quote +:+ "]}".
Definition two_options_world : World :=
  llm_world two_options_json
    [(two_options_json, PyDict {[ "options" := PyList [PyStr "Up"; PyStr "Down"] ]})].

(** An object whose title is [null]. *)
Definition null_title_json : string :=
  "{" +:+ quote +:+ "title" +:+ quote +:+ ": null}".
Definition null_title_world : World :=
  llm_world null_title_json [(null_title_json, PyDict {[ "title" := PyNone ]})].

(** ** Positions and spans in a text *)

(** [c] is at index [i] of [s] and nowhere before. *)
Definition first_at (c : ascii) (s : string) (i : nat) : Prop :=
  String.get i s = Some c /\ forall k, (k < i)%nat -> String.get k s <> Some c.

(** [c] is at index [j] of [s] and nowhere after. *)
Definition last_at (c : ascii) (s : string) (j : nat) : Prop :=
  String.get j s = Some c /\ forall k, (j < k)%nat -> String.get k s <> Some c.

(** The span in the words of the specification: from the first ['{'] to
    the ['}'] that closes it, counting the braces in between. *)
Fixpoint balanced_prefix (depth : nat) (s : string) : option string :=
  match s with
  | "" => None
  | String c s' =>
      if Ascii.eqb c "{" then String c <$> balanced_prefix (S depth) s'
      else if Ascii.eqb c "}" then
        match depth with
        | O => None
        | S O => Some (String c "")
        | S d => String c <$> balanced_prefix d s'
        end
      else String c <$> balanced_prefix depth s'
  end.

Definition first_balanced_span (text : string) : option string :=
  let start := Str.find "{" text in
  if start <? 0 then None
  else balanced_prefix 0 (Str.drop (Z.to_nat start) text).

(** The reply holds two objects; [json.loads] knows the empty object. *)
Definition two_objects_world : World :=
  llm_world "{} and {}" [("{}", PyDict ∅)].

(** ** A sample feed, a sample service and sample sessions *)

Definition news_entries : list (gmap string string) :=
  [ {[ "title" := "First"; "link" := "https://news.example/1";
       "summary" := "the first story"; "published" := "Mon, 02 Jan 2006" ]};
    {[ "link" := "https://news.example/2";
       "description" := "only a description" ]} ].

(** The feed parser answers every URL with the two entries above, the web
    answers every request with the sample article, and the clipboard
    holds the URL of the feed. *)
Definition news_world : World :=
  {| netloc := fun _ => "news.example";
     http_get := fun _ _ => Some article_doc;
     openai := None;
     json_loads := fun _ => None;
     float_of_str := fun _ => None;
     health := None;
     http_post := fun _ => None;
     feedparser_parse := fun _ =>
       Some {| bozo := false; feed := {[ "title" := "News" ]};
               entries := news_entries |};
     get_clipboard := Some (0, "https://news.example/rss" +:+ newline);
     dict_to_xml_returns := fun _ => true;
     clip := fun _ _ => None |}.

(** The same world, with a no-break space before the URL on the
    clipboard. *)
Definition nbsp_clipboard_world : World :=
  {| netloc := netloc news_world;
     http_get := http_get news_world;
     openai := openai news_world;
     json_loads := json_loads news_world;
     float_of_str := float_of_str news_world;
     health := health news_world;
     http_post := http_post news_world;
     feedparser_parse := feedparser_parse news_world;
     get_clipboard := Some (0, nbsp +:+ "https://news.example/rss" +:+ newline);
     dict_to_xml_returns := dict_to_xml_returns news_world;
     clip := clip news_world |}.

Definition falsy_id_response : gmap string pyval :=
  {[ "id" := PyInt 0; "market_id" := PyStr "m-1"; "event_id" := PyStr "e-1" ]}.

(** The service is healthy and answers every post with the object above. *)
Definition ledger_world : World :=
  {| netloc := fun _ => "example.com";
     http_get := fun _ _ => None;
     openai := None;
     json_loads := fun _ => None;
     float_of_str := fun _ => None;
     health := Some 200;
     http_post := fun _ => Some (PyDict falsy_id_response);
     feedparser_parse := fun _ => None;
     get_clipboard := None;
     dict_to_xml_returns := fun _ => true;
     clip := fun _ _ => None |}.

Definition empty_session : Cli.Session :=
  {| Cli.last_event := None; Cli.last_rss_items := [] |}.

(** A session after a listing of the two sample entries. *)
Definition listing : Cli.Session :=
  {| Cli.last_event := None; Cli.last_rss_items := Cli.item_of <$> news_entries |}.

(** The test of the answer to the confirmation prompt:
    [confirm = answer.strip().lower()], then [confirm in ("y", "yes")]. *)
Definition confirms (answer : string) : bool :=
  let confirm := Str.lower (Str.strip answer) in
  String.eqb confirm "y" || String.eqb confirm "yes".

(** A session that holds the fallback event of the sample page. *)
Definition session_with_event : Cli.Session :=
  {| Cli.last_event := Some (Cli.fallback example_page);
     Cli.last_rss_items := [] |}.

(** ** Notions for the further properties *)

(** The names of the elements of a tree, at every depth. *)
Fixpoint tags (n : node) : list string :=
  match n with
  | Text _ => []
  | Elem t cs => t :: concat (map tags cs)
  end.

(** The language model answers, and [json.loads] rejects everything. *)
Definition unparsable_world : World :=
  llm_world "no JSON here, sorry" [].

(** The turn [s] ran the page pipeline on [url] from the session [st]:
    it scraped [url] and kept the feed items; after a failed scrape the
    last event is as before and nothing is posted; after a successful one
    the last event is the event of the page, and that event is posted. *)
Definition scraped_as_page (w : World) (st : Cli.Session) (url : string)
  (s : Cli.Step) : Prop :=
  In (Cli.CallScrape url) (Cli.trace s)
  /\ Cli.last_rss_items (Cli.after s) = Cli.last_rss_items st
  /\ match Cli.scrape_url w url with
     | None =>
         Cli.last_event (Cli.after s) = Cli.last_event st
         /\ forall e, ~ In (Cli.CallPost e) (Cli.trace s)
     | Some data =>
         Cli.last_event (Cli.after s) = Some (Cli.analyze w data)
         /\ In (Cli.CallPost (Cli.analyze w data)) (Cli.trace s)
     end.

(** The world [w] with another event service: [h] answers the health
    check and [p] the posts. *)
Definition with_service (w : World) (h : option Z) (p : pyval -> option pyval)
  : World :=
  {| netloc := netloc w;
     http_get := http_get w;
     openai := openai w;
     json_loads := json_loads w;
     float_of_str := float_of_str w;
     health := h;
     http_post := p;
     feedparser_parse := feedparser_parse w;
     get_clipboard := get_clipboard w;
     dict_to_xml_returns := dict_to_xml_returns w;
     clip := clip w |}.



(** * Properties *)

(** ** The operations on small inputs *)

Example slice_ex : Str.slice "hello world" 2 5 = "llo". Proof. reflexivity. Qed.
Example upto_short : Str.upto "abc" 60 = "abc". Proof. reflexivity. Qed.
Example find_ex : Str.find "{" "ab{c{" = 2. Proof. reflexivity. Qed.
Example find_none : Str.find "{" "abc" = -1. Proof. reflexivity. Qed.
Example rfind_ex : Str.rfind "}" "a}b}c" = 3. Proof. reflexivity. Qed.
Example rfind_none : Str.rfind "}" "" = -1. Proof. reflexivity. Qed.
Example strip_ex : Str.strip "  a b  " = "a b". Proof. reflexivity. Qed.
Example strip_nbsp :
  Str.strip (String "160"%char "yes" +:+ String "133"%char "") = "yes".
Proof. reflexivity. Qed.
Example split_ex : Str.split " 12  json xml " = ["12"; "json"; "xml"].
Proof. reflexivity. Qed.
Example lower_ex : Str.lower "YeS" = "yes". Proof. reflexivity. Qed.
Example lower_latin :
  Str.lower (String "201"%char (String "215"%char ""))
  = String "233"%char (String "215"%char "").
Proof. reflexivity. Qed.
Example isdigit_ex : Str.isdigit "012" = true /\ Str.isdigit "-1" = false
                     /\ Str.isdigit "" = false.
Proof. repeat split. Qed.
Example int_ex : Str.int "012" = Some 12. Proof. reflexivity. Qed.
Example superscript_two :
  Str.isdigit (String "178"%char "") = true
  /\ Str.int (String "178"%char "") = None.
Proof. split; reflexivity. Qed.
Example contains_ex : Str.contains "json" "xml json" = true. Proof. reflexivity. Qed.

Example truthy_zero : Py.truthy (PyInt 0) = false. Proof. reflexivity. Qed.
Example truthy_empty : Py.truthy (PyStr "") = false. Proof. reflexivity. Qed.
Example float_of_int_3 : Py.float_of_int 3 = Some 3%float. Proof. reflexivity. Qed.
Example float_of_int_big : Py.float_of_int (2 ^ 1024) = None. Proof. reflexivity. Qed.
Example as_str_list_ok :
  Py.as_str_list (PyList [PyStr "Yes"; PyStr "No"]) = Some ["Yes"; "No"].
Proof. reflexivity. Qed.
Example as_str_list_bad : Py.as_str_list (PyList [PyStr "Yes"; PyInt 1]) = None.
Proof. reflexivity. Qed.

Example decompose_ex :
  Html.decompose_all ["script"; "nav"] page1 =
  [Elem "html"
     [Elem "head" [Elem "title" [Text " Example Domain "]];
      Elem "body" [Elem "p" [Text "first"; Elem "b" [Text " second "]]]]].
Proof. reflexivity. Qed.

Example get_text_ex :
  (fun n => Html.get_text newline n) <$> Html.find "body" (Html.decompose_all ["script"; "nav"] page1)
  = Some ("first" +:+ newline +:+ "second").
Proof. reflexivity. Qed.

(** ** Strings *)

Lemma take_length (n : nat) (s : string) :
  String.length (Str.take n s) = Nat.min n (String.length s).
Proof.
  revert s; induction n as [|n IH]; intros [|c s]; simpl; auto.
Qed.

Lemma take_all (n : nat) (s : string) :
  (String.length s <= n)%nat -> Str.take n s = s.
Proof.
  revert s; induction n as [|n IH]; intros [|c s]; simpl; intros H;
    try reflexivity; try lia.
  f_equal. apply IH. simpl in H. lia.
Qed.

Lemma drop_0 (s : string) : Str.drop 0 s = s.
Proof. destruct s; reflexivity. Qed.

Lemma upto_take (s : string) (n : Z) :
  0 <= n -> Str.upto s n = Str.take (Z.to_nat n) s.
Proof.
  intros Hn. unfold Str.upto, Str.slice, Str.clamp, Str.len.
  assert (H0 : (0 <? 0) = false) by reflexivity. rewrite H0.
  assert (Hn' : (n <? 0) = false) by (apply Z.ltb_ge; lia). rewrite Hn'.
  rewrite (Z.min_l 0) by lia. simpl Z.to_nat. rewrite drop_0, Z.sub_0_r.
  destruct (Z.le_ge_cases n (Z.of_nat (String.length s))) as [H|H].
  - rewrite Z.min_l by lia. reflexivity.
  - rewrite Z.min_r by lia. rewrite Nat2Z.id.
    rewrite !take_all; auto; lia.
Qed.

Lemma upto_len (s : string) (n : Z) :
  0 <= n -> Str.len (Str.upto s n) = Z.min n (Str.len s).
Proof.
  intros Hn. rewrite upto_take by assumption. unfold Str.len.
  rewrite take_length. lia.
Qed.

Lemma upto_short_id (s : string) (n : Z) :
  Str.len s <= n -> Str.upto s n = s.
Proof.
  unfold Str.len. intros H. rewrite upto_take by lia.
  apply take_all. lia.
Qed.

(** [int] returns exactly on the words of one to 4300 decimal digits. *)
Lemma int_go_returns (s : string) (acc : Z) :
  is_Some (Str.int_go acc s) <->
  forall i c, String.get i s = Some c -> is_Some (Str.digit c).
Proof.
  revert acc. induction s as [|a s IH]; intros acc; simpl.
  - split; [intros _ i c H; destruct i; discriminate|eauto].
  - destruct (Str.digit a) as [d|] eqn:E.
    + rewrite IH. split.
      * intros H [|i] c Hc; simpl in Hc; [injection Hc as <-; rewrite E; eauto|eauto].
      * intros H i c Hc. exact (H (S i) c Hc).
    + split; [intros [? ?]; discriminate|].
      intros H. specialize (H 0%nat a eq_refl). rewrite E in H. exact H.
Qed.

Lemma int_returns (s : string) :
  is_Some (Str.int s) <->
  s <> "" /\ (String.length s <= 4300)%nat
  /\ forall i c, String.get i s = Some c -> is_Some (Str.digit c).
Proof.
  unfold Str.int, Str.int_max_str_digits.
  destruct (String.eqb_spec s "") as [->|Hne].
  - split; [intros [? ?]; discriminate|intros [H _]; contradiction].
  - destruct (Nat.ltb_spec 4300 (String.length s)) as [Hlong|Hshort].
    + split; [intros [? ?]; discriminate|intros (_ & H & _); lia].
    + rewrite int_go_returns. tauto.
Qed.

Lemma digit_is_digit_char (c : ascii) :
  is_Some (Str.digit c) -> Str.is_digit_char c = true.
Proof.
  unfold Str.digit, Str.is_digit_char.
  destruct ((48 <=? N_of_ascii c) && (N_of_ascii c <=? 57))%N;
    [reflexivity|intros [? ?]; discriminate].
Qed.

(** A word that [int] converts is one that [isdigit] accepts. *)
Lemma int_isdigit (s : string) : is_Some (Str.int s) -> Str.isdigit s = true.
Proof.
  rewrite int_returns. intros (Hne & _ & Hd). unfold Str.isdigit.
  destruct (String.eqb_spec s "") as [|_]; [contradiction|]. simpl.
  clear Hne. induction s as [|a s IH]; [reflexivity|]. simpl.
  rewrite (digit_is_digit_char a (Hd 0%nat a eq_refl)). simpl.
  apply IH. intros i c Hc. exact (Hd (S i) c Hc).
Qed.

(** The value is read from the left: one more digit multiplies by ten. *)
Lemma int_go_snoc (s : string) (c : ascii) (acc k d : Z) :
  Str.int_go acc s = Some k -> Str.digit c = Some d ->
  Str.int_go acc (s +:+ String c "") = Some (10 * k + d).
Proof.
  revert acc. induction s as [|a s IH]; intros acc Hk Hd.
  - simpl in *. injection Hk as <-. rewrite Hd. reflexivity.
  - change (String a s +:+ String c "") with (String a (s +:+ String c "")).
    simpl in *. destruct (Str.digit a); [|discriminate]. auto.
Qed.

(** ** Documents *)

Lemma find_in_elem (name t : string) (cs : list node) :
  Html.find_in name (Elem t cs) =
  if String.eqb t name then Some (Elem t cs) else Html.find name cs.
Proof.
  simpl. destruct (String.eqb t name); [reflexivity|].
  induction cs as [|c cs IH]; simpl; [reflexivity|].
  destruct (Html.find_in name c); [reflexivity|apply IH].
Qed.

Lemma find_app (name : string) (l1 l2 : list node) :
  Html.find name (l1 ++ l2) =
  match Html.find name l1 with
  | Some r => Some r
  | None => Html.find name l2
  end.
Proof.
  induction l1 as [|n l1 IH]; simpl; [reflexivity|].
  destruct (Html.find_in name n); [reflexivity|apply IH].
Qed.

Lemma find_none_decompose_list (name : string) (names : list string) (l : list node) :
  Forall (fun n => Html.find_in name n = None ->
                   Html.find name (Html.decompose names n) = None) l ->
  Html.find name l = None ->
  Html.find name (concat (map (Html.decompose names) l)) = None.
Proof.
  induction 1 as [|n l Hn _ IH]; simpl; [reflexivity|].
  destruct (Html.find_in name n) eqn:E; [discriminate|]. intros Hl.
  rewrite find_app, Hn by reflexivity. auto.
Qed.

(** Removing elements never brings an element of a name into view. *)
Lemma find_none_decompose (name : string) (names : list string) (n : node) :
  Html.find_in name n = None ->
  Html.find name (Html.decompose names n) = None.
Proof.
  induction n as [s|t cs IH] using node_induction; [reflexivity|].
  rewrite find_in_elem. intros H.
  change (Html.decompose names (Elem t cs))
    with (if bool_decide (t ∈ names) then []
          else [Elem t (concat (map (Html.decompose names) cs))]).
  destruct (bool_decide (t ∈ names)); [reflexivity|].
  change (Html.find name [Elem t (concat (map (Html.decompose names) cs))])
    with (match Html.find_in name (Elem t (concat (map (Html.decompose names) cs))) with
          | Some r => Some r | None => None end).
  rewrite find_in_elem.
  destruct (String.eqb t name); [discriminate|].
  rewrite find_none_decompose_list; auto.
Qed.

Lemma find_none_decompose_all (name : string) (names : list string) (doc : list node) :
  Html.find name doc = None ->
  Html.find name (Html.decompose_all names doc) = None.
Proof.
  unfold Html.decompose_all. apply find_none_decompose_list.
  apply Forall_forall. intros n _. apply find_none_decompose.
Qed.

(** ** The fallback path of [analyze] *)

(** C7. With no language model configured, [analyze] (in both programs)
    builds the event from the page title alone: title ["Will '" + first 50
    characters of the page title + "' predictions come true?"], description
    ["Based on: " + page title], category ["general"], options
    [["Yes"; "No"; "Partially"]], confidence [0.5] (and the page URL, and in
    scraper.py the fixed resolution date). For a page titled
    ["Example Domain"] with 850 characters of content the event is exactly
    the one of the scenario. *)
Theorem analyze_without_llm_is_fallback (w : World) (scraped : ScrapedPage) :
  openai w = None ->
  Scraper.analyze w scraped =
    {| Scraper.title := "Will '" +:+ Str.upto (page_title scraped) 50 +:+
                        "' predictions come true?";
       Scraper.description := "Based on: " +:+ page_title scraped;
       Scraper.category := "general";
       Scraper.options := ["Yes"; "No"; "Partially"];
       Scraper.confidence := 0.5;
       Scraper.source_url := page_url scraped;
       Scraper.resolution_date := "2025-12-31T23:59:00-05:00" |}
  /\ Cli.analyze w scraped =
    {| Cli.title := "Will '" +:+ Str.upto (page_title scraped) 50 +:+
                    "' predictions come true?";
       Cli.description := "Based on: " +:+ page_title scraped;
       Cli.category := "general";
       Cli.options := ["Yes"; "No"; "Partially"];
       Cli.confidence := 0.5;
       Cli.source_url := page_url scraped |}
  /\ (page_title scraped = "Example Domain" ->
      Str.len (page_content scraped) = 850 ->
      Scraper.analyze w scraped =
        {| Scraper.title := "Will 'Example Domain' predictions come true?";
           Scraper.description := "Based on: Example Domain";
           Scraper.category := "general";
           Scraper.options := ["Yes"; "No"; "Partially"];
           Scraper.confidence := 0.5;
           Scraper.source_url := page_url scraped;
           Scraper.resolution_date := "2025-12-31T23:59:00-05:00" |}
      /\ Cli.analyze w scraped =
        {| Cli.title := "Will 'Example Domain' predictions come true?";
           Cli.description := "Based on: Example Domain";
           Cli.category := "general";
           Cli.options := ["Yes"; "No"; "Partially"];
           Cli.confidence := 0.5;
           Cli.source_url := page_url scraped |}).
Proof.
  intros Hno.
  assert (HS : Scraper.analyze w scraped = Scraper.fallback scraped).
  { unfold Scraper.analyze, Scraper.from_openai. rewrite Hno. reflexivity. }
  assert (HC : Cli.analyze w scraped = Cli.fallback scraped).
  { unfold Cli.analyze, Cli.from_openai. rewrite Hno. reflexivity. }
  rewrite HS, HC. split; [reflexivity|]. split; [reflexivity|].
  intros Ht _. unfold Scraper.fallback, Cli.fallback. rewrite Ht.
  split; reflexivity.
Qed.

Lemma analyze_without_llm_witness :
  Scraper.title (Scraper.analyze offline example_page)
    = "Will 'Example Domain' predictions come true?"
  /\ Cli.options (Cli.analyze offline example_page) = ["Yes"; "No"; "Partially"].
Proof.
  destruct (analyze_without_llm_is_fallback offline example_page eq_refl)
    as (_ & _ & H).
  destruct (H eq_refl eq_refl) as [HS HC].
  rewrite HS, HC. split; reflexivity.
Defined.

(** ** The content gate of the extractor *)

(** C8. Once the document is fetched, [scrape] (and [scrape_url]) returns
    no page exactly when the text extracted after removing the noise
    elements and cut at 5000 characters is shorter than 100 characters;
    a returned page has that text as content, of length 100 to 5000, and
    the title ["Untitled"] when the document has no title element. *)
Theorem scrape_rejects_exactly_short_content (w : World) (url : string) (doc : list node) :
  Scraper.fetch w url 0 3 = Some doc ->
  let content := Scraper.content_of (Html.decompose_all Scraper.noise doc) in
  (Scraper.scrape w url = None <-> Str.len content < 100)
  /\ (Cli.scrape_url w url = None <-> Str.len content < 100)
  /\ (forall page,
        Scraper.scrape w url = Some page \/ Cli.scrape_url w url = Some page ->
        page_content page = content
        /\ 100 <= Str.len (page_content page) <= 5000
        /\ (Html.find "title" doc = None -> page_title page = "Untitled")).
Proof.
  intros Hfetch content.
  assert (Hsame : Cli.scrape_url w url = Scraper.scrape w url) by reflexivity.
  assert (Hlen : Str.len content <= 5000).
  { subst content. unfold Scraper.content_of.
    destruct (Scraper.main_of _); [|unfold Str.len; simpl; lia].
    rewrite upto_len by lia. lia. }
  assert (Hgate : Scraper.scrape w url =
                  if Str.len content <? 100 then None
                  else Some {| page_title := Scraper.title_of (Html.decompose_all Scraper.noise doc);
                               page_content := content; page_url := url;
                               page_domain := netloc w url |}).
  { unfold Scraper.scrape. rewrite Hfetch. reflexivity. }
  rewrite Hsame, Hgate.
  destruct (Z.ltb_spec (Str.len content) 100) as [Hlt|Hge].
  - split; [tauto|]. split; [tauto|]. intros page [H|H]; discriminate.
  - split; [split; [discriminate|lia]|]. split; [split; [discriminate|lia]|].
    intros page H. assert (E : Some {| page_title := Scraper.title_of (Html.decompose_all Scraper.noise doc);
                               page_content := content; page_url := url;
                               page_domain := netloc w url |} = Some page) by tauto.
    injection E as <-. simpl. split; [reflexivity|]. split; [lia|].
    intros Hnone. unfold Scraper.title_of.
    rewrite find_none_decompose_all by assumption. reflexivity.
Qed.

(** A string of nothing but a no-break space is whitespace to
    [get_text(strip=True)]: it adds nothing to the content, and the page
    with 99 other characters is rejected. *)
Example no_break_space_is_no_content :
  Scraper.content_of (Html.decompose_all Scraper.noise padded_doc)
  = repeat_char "a" 99
  /\ Scraper.scrape padded_web "https://example.com/a" = None
  /\ Cli.scrape_url padded_web "https://example.com/a" = None.
Proof. repeat split; vm_compute; reflexivity. Qed.

Lemma scrape_rejects_exactly_short_content_witness :
  exists page,
    Scraper.scrape flaky_web "https://example.com/a" = Some page
    /\ Str.len (page_content page) = 120
    /\ page_title page = "Untitled".
Proof.
  destruct (scrape_rejects_exactly_short_content flaky_web
              "https://example.com/a" article_doc eq_refl) as (Hs & _ & Hp).
  destruct (Scraper.scrape flaky_web "https://example.com/a") as [page|] eqn:E.
  - exists page. split; [reflexivity|].
    destruct (Hp page (or_introl eq_refl)) as (Hc & _ & _).
    rewrite Hc. split; [reflexivity|].
    vm_compute in E. injection E as <-. reflexivity.
  - exfalso. apply proj1 in Hs. specialize (Hs eq_refl). vm_compute in Hs.
    discriminate.
Defined.

(** ** The language-model path of [analyze] *)

Lemma scraper_from_response_inv (w : World) (scraped : ScrapedPage) (text : string)
    (e : Scraper.PredictionEvent) :
  Scraper.from_response w scraped text = Some e ->
  exists span data,
    Scraper.json_span text = Some span
    /\ json_loads w span = Some (PyDict data)
    /\ Py.as_str (Py.get_or data "title" (PyStr (title_default scraped)))
       = Some (Scraper.title e)
    /\ Py.as_str (Py.get_or data "description" (PyStr (description_default scraped)))
       = Some (Scraper.description e)
    /\ Py.as_str (Py.get_or data "category" (PyStr "general"))
       = Some (Scraper.category e)
    /\ Py.as_str_list (Py.get_or data "options" (PyList [PyStr "Yes"; PyStr "No"]))
       = Some (Scraper.options e)
    /\ Py.float (float_of_str w) (Py.get_or data "confidence" (PyFloat 0.7))
       = Some (Scraper.confidence e)
    /\ Py.as_str (Py.get_or data "resolution_date" (PyStr Scraper.default_date))
       = Some (Scraper.resolution_date e)
    /\ Scraper.source_url e = page_url scraped.
Proof.
  unfold Scraper.from_response, title_default, description_default.
  intros H.
  destruct (Scraper.json_span text) as [span|]; [|discriminate].
  simpl in H.
  destruct (json_loads w span) as [[| | | | | |data]|] eqn:Hl; try discriminate.
  simpl in H.
  repeat match type of H with
         | mbind _ ?m = Some _ => destruct m eqn:?; simpl in H; [|discriminate]
         end.
  injection H as <-. exists span, data. simpl.
  repeat split; first [assumption | reflexivity].
Qed.

Lemma cli_from_response_inv (w : World) (scraped : ScrapedPage) (text : string)
    (e : Cli.PredictionEvent) :
  Cli.from_response w scraped text = Some e ->
  exists span data,
    Scraper.json_span text = Some span
    /\ json_loads w span = Some (PyDict data)
    /\ Py.as_str (Py.get_or data "title" (PyStr (title_default scraped)))
       = Some (Cli.title e)
    /\ Py.as_str (Py.get_or data "description" (PyStr (description_default scraped)))
       = Some (Cli.description e)
    /\ Py.as_str (Py.get_or data "category" (PyStr "general"))
       = Some (Cli.category e)
    /\ Py.as_str_list (Py.get_or data "options" (PyList [PyStr "Yes"; PyStr "No"]))
       = Some (Cli.options e)
    /\ Py.float (float_of_str w) (Py.get_or data "confidence" (PyFloat 0.7))
       = Some (Cli.confidence e)
    /\ Cli.source_url e = page_url scraped.
Proof.
  unfold Cli.from_response, title_default, description_default.
  intros H.
  destruct (Scraper.json_span text) as [span|]; [|discriminate].
  simpl in H.
  destruct (json_loads w span) as [[| | | | | |data]|] eqn:Hl; try discriminate.
  simpl in H.
  repeat match type of H with
         | mbind _ ?m = Some _ => destruct m eqn:?; simpl in H; [|discriminate]
         end.
  injection H as <-. exists span, data. simpl.
  repeat split; first [assumption | reflexivity].
Qed.

Lemma scraper_from_openai_eq (w : World) (scraped : ScrapedPage) :
  Scraper.from_openai w scraped
  = response_object w scraped ≫= scraper_event_of w scraped.
Proof.
  unfold Scraper.from_openai, response_object, Scraper.from_response.
  destruct (openai w) as [chat|]; [simpl|reflexivity].
  destruct (chat _) as [text|]; [simpl|reflexivity].
  destruct (Scraper.json_span text) as [span|]; [simpl|reflexivity].
  destruct (json_loads w span) as [[| | | | | |data]|]; reflexivity.
Qed.

Lemma cli_from_openai_eq (w : World) (scraped : ScrapedPage) :
  Cli.from_openai w scraped
  = response_object w scraped ≫= cli_event_of w scraped.
Proof.
  unfold Cli.from_openai, response_object, Cli.from_response.
  destruct (openai w) as [chat|]; [simpl|reflexivity].
  destruct (chat _) as [text|]; [simpl|reflexivity].
  destruct (Scraper.json_span text) as [span|]; [simpl|reflexivity].
  destruct (json_loads w span) as [[| | | | | |data]|]; reflexivity.
Qed.

Ltac split_fields :=
  repeat match goal with
         | |- context [Py.as_str ?v] =>
             let E := fresh "E" in destruct (Py.as_str v) eqn:E
         | |- context [Py.as_str_list ?v] =>
             let E := fresh "E" in destruct (Py.as_str_list v) eqn:E
         | |- context [Py.float ?f ?v] =>
             let E := fresh "E" in destruct (Py.float f v) eqn:E
         end.

Lemma scraper_event_of_validates (w : World) (scraped : ScrapedPage)
    (data : gmap string pyval) :
  validates w scraped data true = true <->
  is_Some (scraper_event_of w scraped data).
Proof.
  unfold validates, scraper_event_of. split_fields; simpl;
    split; intros H; first [discriminate | by eexists | by destruct H].
Qed.

Lemma cli_event_of_validates (w : World) (scraped : ScrapedPage)
    (data : gmap string pyval) :
  validates w scraped data false = true <->
  is_Some (cli_event_of w scraped data).
Proof.
  unfold validates, cli_event_of. split_fields; simpl;
    split; intros H; first [discriminate | by eexists | by destruct H].
Qed.

Lemma scraper_analyze_cases (w : World) (scraped : ScrapedPage)
    (data : gmap string pyval) :
  response_object w scraped = Some data ->
  match scraper_event_of w scraped data with
  | Some e => Scraper.analyze w scraped = e
  | None => Scraper.analyze w scraped = Scraper.fallback scraped
  end.
Proof.
  intros Hdata. unfold Scraper.analyze.
  rewrite scraper_from_openai_eq, Hdata. simpl.
  destruct (scraper_event_of w scraped data); reflexivity.
Qed.

Lemma cli_analyze_cases (w : World) (scraped : ScrapedPage)
    (data : gmap string pyval) :
  response_object w scraped = Some data ->
  match cli_event_of w scraped data with
  | Some e => Cli.analyze w scraped = e
  | None => Cli.analyze w scraped = Cli.fallback scraped
  end.
Proof.
  intros Hdata. unfold Cli.analyze.
  rewrite cli_from_openai_eq, Hdata. simpl.
  destruct (cli_event_of w scraped data); reflexivity.
Qed.

Lemma scraper_event_of_fields (w : World) (scraped : ScrapedPage)
    (data : gmap string pyval) (e : Scraper.PredictionEvent) :
  scraper_event_of w scraped data = Some e ->
  Py.as_str (Py.get_or data "title" (PyStr (title_default scraped)))
    = Some (Scraper.title e)
  /\ Py.as_str (Py.get_or data "description" (PyStr (description_default scraped)))
    = Some (Scraper.description e)
  /\ Py.as_str (Py.get_or data "category" (PyStr "general"))
    = Some (Scraper.category e)
  /\ Py.as_str_list (Py.get_or data "options" (PyList [PyStr "Yes"; PyStr "No"]))
    = Some (Scraper.options e)
  /\ Py.float (float_of_str w) (Py.get_or data "confidence" (PyFloat 0.7))
    = Some (Scraper.confidence e)
  /\ Py.as_str (Py.get_or data "resolution_date" (PyStr Scraper.default_date))
    = Some (Scraper.resolution_date e).
Proof.
  unfold scraper_event_of. intros H.
  repeat match type of H with
         | mbind _ ?m = Some _ => destruct m eqn:?; simpl in H; [|discriminate]
         end.
  injection H as <-. simpl. repeat split; assumption.
Qed.

Lemma cli_event_of_fields (w : World) (scraped : ScrapedPage)
    (data : gmap string pyval) (e : Cli.PredictionEvent) :
  cli_event_of w scraped data = Some e ->
  Py.as_str (Py.get_or data "title" (PyStr (title_default scraped)))
    = Some (Cli.title e)
  /\ Py.as_str (Py.get_or data "description" (PyStr (description_default scraped)))
    = Some (Cli.description e)
  /\ Py.as_str (Py.get_or data "category" (PyStr "general"))
    = Some (Cli.category e)
  /\ Py.as_str_list (Py.get_or data "options" (PyList [PyStr "Yes"; PyStr "No"]))
    = Some (Cli.options e)
  /\ Py.float (float_of_str w) (Py.get_or data "confidence" (PyFloat 0.7))
    = Some (Cli.confidence e).
Proof.
  unfold cli_event_of. intros H.
  repeat match type of H with
         | mbind _ ?m = Some _ => destruct m eqn:?; simpl in H; [|discriminate]
         end.
  injection H as <-. simpl. repeat split; assumption.
Qed.

(** A key the object does not have reads as the default of the call. *)
Lemma get_or_absent (data : gmap string pyval) (k : string) (dflt : pyval) :
  data !! k = None -> Py.get_or data k dflt = dflt.
Proof. unfold Py.get_or. intros ->. reflexivity. Qed.

(** A key the object has reads as its value, [null] included. *)
Lemma get_or_present (data : gmap string pyval) (k : string) (dflt v : pyval) :
  data !! k = Some v -> Py.get_or data k dflt = v.
Proof. unfold Py.get_or. intros ->. reflexivity. Qed.

Example one_option_span :
  Scraper.json_span ("Here is the market: " +:+ one_option_json) = Some one_option_json.
Proof. reflexivity. Qed.

(** ** C1: the number of options *)

(** C1, as stated, fails: a response that supplies a list of one option
    gives an event with that one option, in both programs. *)
Lemma analyze_keeps_one_option :
  Scraper.options (Scraper.analyze one_option_world example_page) = ["Yes"]
  /\ Cli.options (Cli.analyze one_option_world example_page) = ["Yes"]
  /\ ~ (2 <= length (Scraper.options (Scraper.analyze one_option_world example_page)))%nat.
Proof.
  assert (H : Scraper.options (Scraper.analyze one_option_world example_page) = ["Yes"])
    by (vm_compute; reflexivity).
  split; [exact H|]. split; [vm_compute; reflexivity|].
  rewrite H. simpl. lia.
Qed.

(** C1, amended. [analyze] returns an event with at least two options
    unless the response object itself supplies an [options] list of fewer
    than two strings: the fallback has three, a response without [options]
    gets two, and a supplied list of strings is kept as it is. *)
Theorem analyze_options_at_least_two (w : World) (scraped : ScrapedPage) :
  (forall data v l,
     response_object w scraped = Some data ->
     data !! "options" = Some v ->
     Py.as_str_list v = Some l ->
     (2 <= length l)%nat) ->
  (2 <= length (Scraper.options (Scraper.analyze w scraped)))%nat
  /\ (2 <= length (Cli.options (Cli.analyze w scraped)))%nat.
Proof.
  intros Hsupplied.
  destruct (response_object w scraped) as [data|] eqn:Hdata.
  - pose proof (scraper_analyze_cases w scraped data Hdata) as HS.
    pose proof (cli_analyze_cases w scraped data Hdata) as HC.
    assert (Hopt : forall l,
      Py.as_str_list (Py.get_or data "options" (PyList [PyStr "Yes"; PyStr "No"]))
      = Some l -> (2 <= length l)%nat).
    { intros l Hl. destruct (data !! "options") as [v|] eqn:Hv.
      - rewrite (get_or_present _ _ _ _ Hv) in Hl. eauto.
      - rewrite (get_or_absent _ _ _ Hv) in Hl. injection Hl as <-. simpl. lia. }
    split.
    + destruct (scraper_event_of w scraped data) as [e|] eqn:He.
      * rewrite HS. apply Hopt. apply (scraper_event_of_fields _ _ _ _ He).
      * rewrite HS. simpl. lia.
    + destruct (cli_event_of w scraped data) as [e|] eqn:He.
      * rewrite HC. apply Hopt. apply (cli_event_of_fields _ _ _ _ He).
      * rewrite HC. simpl. lia.
  - unfold Scraper.analyze, Cli.analyze.
    rewrite scraper_from_openai_eq, cli_from_openai_eq, Hdata. simpl. lia.
Qed.

Lemma analyze_options_at_least_two_witness :
  Scraper.options (Scraper.analyze two_options_world example_page) = ["Up"; "Down"]
  /\ (2 <= length (Cli.options (Cli.analyze two_options_world example_page)))%nat.
Proof.
  split; [vm_compute; reflexivity|].
  apply (analyze_options_at_least_two two_options_world example_page).
  intros data v l Hdata Hv Hl.
  vm_compute in Hdata. injection Hdata as <-.
  vm_compute in Hv. injection Hv as <-.
  vm_compute in Hl. injection Hl as <-. simpl. lia.
Defined.

(** ** C2: defaults for the fields the response leaves out *)

(** C2, as stated, fails for a field that is present with the value
    [null]: the constructor rejects it, the exception is caught, and the
    event is the fallback event, whose title is not the documented default
    of the language-model path. *)
Lemma null_title_gives_fallback :
  Scraper.title (Scraper.analyze null_title_world example_page)
    = "Will 'Example Domain' predictions come true?"
  /\ Scraper.title (Scraper.analyze null_title_world example_page)
    <> "Prediction: Example Domain?"
  /\ Cli.title (Cli.analyze null_title_world example_page)
    <> "Prediction: Example Domain?"
  /\ Scraper.options (Scraper.analyze null_title_world example_page)
    <> ["Yes"; "No"].
Proof.
  split; [vm_compute; reflexivity|].
  repeat split; intros H; vm_compute in H; discriminate.
Qed.

Lemma validates_null (w : World) (scraped : ScrapedPage)
    (data : gmap string pyval) (k : string) (with_date : bool) :
  k ∈ ["title"; "description"; "category"; "options"; "confidence"] ->
  data !! k = Some PyNone ->
  validates w scraped data with_date = false.
Proof.
  intros Hk Hnull. unfold validates.
  rewrite !elem_of_cons, elem_of_nil in Hk.
  destruct Hk as [->|[->|[->|[->|[->|[]]]]]];
    rewrite (get_or_present _ _ _ _ Hnull); simpl;
    rewrite ?andb_false_r; reflexivity.
Qed.

Lemma validates_null_date (w : World) (scraped : ScrapedPage)
    (data : gmap string pyval) :
  data !! "resolution_date" = Some PyNone ->
  validates w scraped data true = false.
Proof.
  intros Hnull. unfold validates.
  rewrite (get_or_present _ _ _ _ Hnull). simpl.
  rewrite ?andb_false_r; reflexivity.
Qed.

(** The field whose validated value is [H] was left out ([Habs]): it is
    the default. *)
Ltac by_default H Habs :=
  rewrite (get_or_absent _ _ _ Habs) in H; simpl in H;
  injection H as <-; reflexivity.

(** C2, amended. Let the response of the language model parse to the
    object [data]. If every field that [data] supplies passes the
    validation of its type, then [analyze] returns an event in which each
    field that [data] leaves out has its documented default (title
    ["Prediction: " + first 60 characters of the page title + "?"],
    description the first 200 characters of the content, category
    ["general"], options [["Yes"; "No"]], confidence [0.7], and in
    scraper.py the fixed resolution date). If a supplied field does not
    pass (a field supplied as [null] never does), the event is the one of
    the fallback path in all its fields. Either way [analyze] returns an
    event, and every field of an event holds a value of its type. *)
Theorem llm_absent_fields_take_defaults (w : World) (scraped : ScrapedPage)
    (data : gmap string pyval) :
  response_object w scraped = Some data ->
  (validates w scraped data true = true ->
   let e := Scraper.analyze w scraped in
   (data !! "title" = None ->
    Scraper.title e = "Prediction: " +:+ Str.upto (page_title scraped) 60 +:+ "?")
   /\ (data !! "description" = None ->
       Scraper.description e = Str.upto (page_content scraped) 200)
   /\ (data !! "category" = None -> Scraper.category e = "general")
   /\ (data !! "options" = None -> Scraper.options e = ["Yes"; "No"])
   /\ (data !! "confidence" = None -> Scraper.confidence e = 0.7%float)
   /\ (data !! "resolution_date" = None ->
       Scraper.resolution_date e = "2025-12-31T23:59:00-05:00"))
  /\ (validates w scraped data false = true ->
      let e := Cli.analyze w scraped in
      (data !! "title" = None ->
       Cli.title e = "Prediction: " +:+ Str.upto (page_title scraped) 60 +:+ "?")
      /\ (data !! "description" = None ->
          Cli.description e = Str.upto (page_content scraped) 200)
      /\ (data !! "category" = None -> Cli.category e = "general")
      /\ (data !! "options" = None -> Cli.options e = ["Yes"; "No"])
      /\ (data !! "confidence" = None -> Cli.confidence e = 0.7%float))
  /\ (validates w scraped data true = false ->
      Scraper.analyze w scraped = Scraper.fallback scraped)
  /\ (validates w scraped data false = false ->
      Cli.analyze w scraped = Cli.fallback scraped)
  /\ (forall k,
        k ∈ ["title"; "description"; "category"; "options"; "confidence"] ->
        data !! k = Some PyNone ->
        Scraper.analyze w scraped = Scraper.fallback scraped
        /\ Cli.analyze w scraped = Cli.fallback scraped)
  /\ (data !! "resolution_date" = Some PyNone ->
      Scraper.analyze w scraped = Scraper.fallback scraped).
Proof.
  intros Hdata.
  pose proof (scraper_analyze_cases w scraped data Hdata) as HS.
  pose proof (cli_analyze_cases w scraped data Hdata) as HC.
  assert (HSbad : validates w scraped data true = false ->
                  Scraper.analyze w scraped = Scraper.fallback scraped).
  { intros Hv. destruct (scraper_event_of w scraped data) as [e|] eqn:He; [|exact HS].
    assert (Hs : is_Some (scraper_event_of w scraped data)) by (rewrite He; eauto).
    apply scraper_event_of_validates in Hs. congruence. }
  assert (HCbad : validates w scraped data false = false ->
                  Cli.analyze w scraped = Cli.fallback scraped).
  { intros Hv. destruct (cli_event_of w scraped data) as [e|] eqn:He; [|exact HC].
    assert (Hs : is_Some (cli_event_of w scraped data)) by (rewrite He; eauto).
    apply cli_event_of_validates in Hs. congruence. }
  split; [|split; [|split; [exact HSbad|split; [exact HCbad|split]]]].
  - intros Hv e0. subst e0.
    apply scraper_event_of_validates in Hv. destruct Hv as [e He].
    rewrite He in HS. rewrite HS.
    destruct (scraper_event_of_fields _ _ _ _ He) as (Ht & Hd & Hc & Ho & Hf & Hr).
    repeat split; intros Habs;
      [ by_default Ht Habs | by_default Hd Habs | by_default Hc Habs
      | by_default Ho Habs | by_default Hf Habs | by_default Hr Habs ].
  - intros Hv e0. subst e0.
    apply cli_event_of_validates in Hv. destruct Hv as [e He].
    rewrite He in HC. rewrite HC.
    destruct (cli_event_of_fields _ _ _ _ He) as (Ht & Hd & Hc & Ho & Hf).
    repeat split; intros Habs;
      [ by_default Ht Habs | by_default Hd Habs | by_default Hc Habs
      | by_default Ho Habs | by_default Hf Habs ].
  - intros k Hk Hnull. split.
    + apply HSbad. eapply validates_null; eauto.
    + apply HCbad. eapply validates_null; eauto.
  - intros Hnull. apply HSbad. apply validates_null_date. exact Hnull.
Qed.

Lemma llm_absent_fields_take_defaults_witness :
  Scraper.title (Scraper.analyze two_options_world example_page)
    = "Prediction: Example Domain?"
  /\ Scraper.confidence (Scraper.analyze two_options_world example_page) = 0.7%float
  /\ Cli.category (Cli.analyze two_options_world example_page) = "general".
Proof.
  assert (Hdata : response_object two_options_world example_page
                  = Some {[ "options" := PyList [PyStr "Up"; PyStr "Down"] ]})
    by (vm_compute; reflexivity).
  destruct (llm_absent_fields_take_defaults two_options_world example_page _ Hdata)
    as (HS & HC & _).
  destruct (HS eq_refl) as (Ht & _ & _ & _ & Hf & _).
  destruct (HC eq_refl) as (_ & _ & Hc & _).
  split; [|split].
  - rewrite (Ht eq_refl). reflexivity.
  - exact (Hf eq_refl).
  - exact (Hc eq_refl).
Defined.

(** ** C3: where the JSON object is looked for *)

Example first_balanced_nested :
  first_balanced_span "a {x{y}z} b } c" = Some "{x{y}z}".
Proof. reflexivity. Qed.

Lemma find_spec (c : ascii) (s : string) :
  (Str.find c s = -1 /\ forall k, String.get k s <> Some c)
  \/ (exists i, Str.find c s = Z.of_nat i /\ first_at c s i).
Proof.
  induction s as [|a s IH]; simpl.
  - left. split; [reflexivity|]. intros k. destruct k; discriminate.
  - destruct (Ascii.eqb_spec a c) as [->|Hne].
    + right. exists 0%nat. split; [reflexivity|]. split; [reflexivity|]. lia.
    + destruct IH as [[-> Hall]|(i & -> & Hi & Hbefore)].
      * left. split; [reflexivity|]. intros [|k]; simpl; [congruence|apply Hall].
      * right. exists (S i).
        assert (E : (Z.of_nat i <? 0) = false) by (apply Z.ltb_ge; lia).
        rewrite E. split; [lia|]. split; [exact Hi|].
        intros [|k] Hk; simpl; [congruence|apply Hbefore; lia].
Qed.

Lemma rfind_spec (c : ascii) (s : string) :
  (Str.rfind c s = -1 /\ forall k, String.get k s <> Some c)
  \/ (exists j, Str.rfind c s = Z.of_nat j /\ last_at c s j).
Proof.
  induction s as [|a s IH]; simpl.
  - left. split; [reflexivity|]. intros k. destruct k; discriminate.
  - destruct IH as [[-> Hall]|(j & -> & Hj & Hafter)].
    + simpl. destruct (Ascii.eqb_spec a c) as [->|Hne].
      * right. exists 0%nat. split; [reflexivity|]. split; [reflexivity|].
        intros [|k] Hk; [lia|]. simpl. apply Hall.
      * left. split; [reflexivity|]. intros [|k]; simpl; [congruence|apply Hall].
    + right. exists (S j).
      assert (E : (0 <=? Z.of_nat j) = true) by (apply Z.leb_le; lia).
      rewrite E. split; [lia|]. split; [exact Hj|].
      intros [|k] Hk; [lia|]. simpl. apply Hafter. lia.
Qed.

Lemma get_some_lt (s : string) (i : nat) (c : ascii) :
  String.get i s = Some c -> (i < String.length s)%nat.
Proof.
  revert i; induction s as [|a s IH]; intros [|i]; simpl; try discriminate.
  - lia.
  - intros H. apply IH in H. lia.
Qed.

Lemma take_drop_substring (n m : nat) (s : string) :
  Str.take m (Str.drop n s) = String.substring n m s.
Proof.
  revert n m; induction s as [|a s IH]; intros [|n] [|m]; simpl;
    try reflexivity.
  - f_equal. apply (IH 0%nat m).
  - apply (IH n 0%nat).
  - apply (IH n (S m)).
Qed.

Lemma slice_substring (s : string) (i j : nat) :
  (i <= j)%nat -> (j < String.length s)%nat ->
  Str.slice s (Z.of_nat i) (Z.of_nat j + 1) = String.substring i (j + 1 - i) s.
Proof.
  intros Hij Hj. unfold Str.slice, Str.clamp, Str.len.
  assert (E1 : (Z.of_nat i <? 0) = false) by (apply Z.ltb_ge; lia).
  assert (E2 : (Z.of_nat j + 1 <? 0) = false) by (apply Z.ltb_ge; lia).
  rewrite E1, E2. rewrite !Z.min_l by lia.
  rewrite Nat2Z.id.
  replace (Z.to_nat (Z.of_nat j + 1 - Z.of_nat i)) with (j + 1 - i)%nat by lia.
  apply take_drop_substring.
Qed.

(** C3, as stated, fails: for a response with two disjoint objects the
    span taken runs from the first ['{'] to the last ['}'], over both
    objects; it is not the first balanced span, [json.loads] rejects it,
    and the event is the fallback event, not one parsed from the first
    object. *)
Lemma json_span_spans_both_objects :
  first_balanced_span "{} and {}" = Some "{}"
  /\ Scraper.json_span "{} and {}" = Some "{} and {}"
  /\ Scraper.from_response two_objects_world example_page "{} and {}" = None
  /\ Cli.from_response two_objects_world example_page "{} and {}" = None
  /\ Scraper.analyze two_objects_world example_page = Scraper.fallback example_page.
Proof. repeat split; vm_compute; reflexivity. Qed.

(** C3, amended. The span that the synthesizer takes from the response
    text runs from the first ['{'] of the text to the last ['}'] of the
    text, both included, and there is such a span exactly when some ['{']
    comes before some ['}']; the language-model path returns an event only
    when [json.loads] parses this span into an object. *)
Theorem json_span_first_open_to_last_close (text : string) :
  match Scraper.json_span text with
  | Some span =>
      exists i j,
        (i < j)%nat /\ first_at "{" text i /\ last_at "}" text j
        /\ span = String.substring i (j + 1 - i) text
  | None =>
      forall i j, (i < j)%nat ->
                  String.get i text = Some "{"%char ->
                  String.get j text = Some "}"%char -> False
  end
  /\ (forall w scraped,
        (is_Some (Scraper.from_response w scraped text)
         \/ is_Some (Cli.from_response w scraped text)) ->
        exists span data,
          Scraper.json_span text = Some span
          /\ json_loads w span = Some (PyDict data)).
Proof.
  split.
  - unfold Scraper.json_span.
    destruct (find_spec "{" text) as [[-> Hno]|(i & -> & Hi)].
    { simpl. intros i j _ H _. exact (Hno i H). }
    destruct (rfind_spec "}" text) as [[-> Hno]|(j & -> & Hj)].
    { assert (E : (0 <=? Z.of_nat i) && (Z.of_nat i <? -1 + 1) = false).
      { apply andb_false_iff. right. apply Z.ltb_ge. lia. }
      rewrite E. intros i' j' _ _ H. exact (Hno j' H). }
    destruct Hi as [Hi Hbefore]. destruct Hj as [Hj Hafter].
    assert (Hne : i <> j).
    { intros ->. rewrite Hi in Hj. discriminate. }
    destruct (Z.ltb_spec (Z.of_nat i) (Z.of_nat j + 1)) as [Hlt|Hge].
    + assert (E : (0 <=? Z.of_nat i) = true) by (apply Z.leb_le; lia).
      rewrite E. simpl. exists i, j.
      split; [lia|]. split; [split; assumption|]. split; [split; assumption|].
      apply slice_substring; [lia|]. eapply get_some_lt; eauto.
    + rewrite andb_false_r. intros i' j' Hij Hi' Hj'.
      assert (i <= i')%nat.
      { destruct (Nat.le_gt_cases i i') as [H|H]; [exact H|].
        exfalso. exact (Hbefore i' H Hi'). }
      assert (j' <= j)%nat.
      { destruct (Nat.le_gt_cases j' j) as [H'|H']; [exact H'|].
        exfalso. exact (Hafter j' H' Hj'). }
      lia.
  - intros w scraped [[e He]|[e He]].
    + destruct (scraper_from_response_inv _ _ _ _ He) as (span & data & Hs & Hl & _).
      eauto.
    + destruct (cli_from_response_inv _ _ _ _ He) as (span & data & Hs & Hl & _).
      eauto.
Qed.

(** ** C4: the items of a feed *)

(** C4, as stated, fails for the title: an entry without a title gives an
    item titled ["Untitled"], not the empty string. *)
Lemma missing_title_is_untitled :
  (Cli.feed_items <$> Cli.parse_rss news_world "https://news.example/rss")
  = Some [ {| Cli.item_title := "First";
              Cli.item_link := "https://news.example/1";
              Cli.item_summary := "the first story";
              Cli.item_published := "Mon, 02 Jan 2006" |};
           {| Cli.item_title := "Untitled";
              Cli.item_link := "https://news.example/2";
              Cli.item_summary := "only a description";
              Cli.item_published := "" |} ]
  /\ Cli.item_title (Cli.item_of {[ "link" := "https://news.example/2" ]}) <> "".
Proof. split; [vm_compute; reflexivity|]. vm_compute. discriminate. Qed.

(** C4, amended. For a feed that parses (not both malformed and empty),
    [parse_rss] returns one item per entry, in order. The summary of an
    item is the entry's summary, or without one its description, or
    without either the empty string, cut at 200 characters; a missing
    link or publication date is the empty string; a missing title is
    ["Untitled"]. *)
Theorem parse_rss_items (w : World) (url : string) (parsed : ParsedFeed) :
  feedparser_parse w url = Some parsed ->
  bozo parsed && Nat.eqb (length (entries parsed)) 0 = false ->
  exists fd,
    Cli.parse_rss w url = Some fd
    /\ length (Cli.feed_items fd) = length (entries parsed)
    /\ forall (i : nat) (entry : gmap string string),
         entries parsed !! i = Some entry ->
         exists item,
           Cli.feed_items fd !! i = Some item
           /\ Cli.item_summary item =
                Str.upto match entry !! "summary" with
                         | Some s => s
                         | None =>
                             match entry !! "description" with
                             | Some d => d
                             | None => ""
                             end
                         end 200
           /\ Str.len (Cli.item_summary item) <= 200
           /\ Cli.item_link item = default "" (entry !! "link")
           /\ Cli.item_published item = default "" (entry !! "published")
           /\ Cli.item_title item = default "Untitled" (entry !! "title").
Proof.
  intros Hparse Hfeed. unfold Cli.parse_rss. rewrite Hparse, Hfeed.
  eexists. split; [reflexivity|]. simpl. split; [apply length_fmap|].
  intros i entry Hi. exists (Cli.item_of entry).
  split; [rewrite list_lookup_fmap, Hi; reflexivity|].
  unfold Cli.item_of; simpl.
  split; [destruct (entry !! "summary"), (entry !! "description"); reflexivity|].
  split; [rewrite upto_len by lia; lia|].
  repeat split.
Qed.

Lemma parse_rss_items_witness :
  exists fd,
    Cli.parse_rss news_world "https://news.example/rss" = Some fd
    /\ length (Cli.feed_items fd) = 2%nat.
Proof.
  destruct (parse_rss_items news_world "https://news.example/rss"
              {| bozo := false; feed := {[ "title" := "News" ]};
                 entries := news_entries |} eq_refl eq_refl)
    as (fd & Hfd & Hlen & _).
  exists fd. split; [exact Hfd|exact Hlen].
Defined.

(** ** C6: the identifier of a published event *)

(** C6, as stated, fails: with all three fields present and an [id] of
    [0], the identifier is the value of [market_id]; the same for an [id]
    that is the empty string. *)
Lemma falsy_id_is_skipped :
  Scraper.post_to_blockchain ledger_world (Scraper.fallback example_page)
    = Returns (PyStr "m-1")
  /\ falsy_id_response !! "id" = Some (PyInt 0)
  /\ Cli.identifier falsy_id_response = PyStr "m-1"
  /\ Scraper.identifier (<["id" := PyStr ""]> falsy_id_response) = PyStr "m-1".
Proof. repeat split; vm_compute; reflexivity. Qed.

(** C6, amended. The identifier taken from a response object is the value
    of [id] when that value is truthy, else the value of [market_id] when
    that one is truthy, else the value of [event_id] ([None] for a field
    that is missing): a value such as [0], the empty string or [null] is
    passed over. The publisher of scraper.py returns this identifier for a
    healthy service and a successful post; the session of cli.py extracts
    it in the same way. *)
Theorem identifier_is_first_truthy (data : gmap string pyval) :
  Scraper.identifier data =
    (if Py.truthy (Py.get data "id") then Py.get data "id"
     else if Py.truthy (Py.get data "market_id") then Py.get data "market_id"
     else Py.get data "event_id")
  /\ Cli.identifier data = Scraper.identifier data
  /\ (forall v, data !! "id" = Some v -> Py.truthy v = true ->
                Scraper.identifier data = v)
  /\ (forall w event,
        health w = Some 200 ->
        http_post w (Scraper.payload w event) = Some (PyDict data) ->
        Scraper.post_to_blockchain w event = Returns (Scraper.identifier data)).
Proof.
  assert (H : Scraper.identifier data =
    (if Py.truthy (Py.get data "id") then Py.get data "id"
     else if Py.truthy (Py.get data "market_id") then Py.get data "market_id"
     else Py.get data "event_id")).
  { unfold Scraper.identifier, Py.or.
    destruct (Py.truthy (Py.get data "id")) eqn:E; [rewrite E|]; reflexivity. }
  split; [exact H|]. split; [reflexivity|]. split.
  - intros v Hv Ht. rewrite H. unfold Py.get. rewrite Hv. simpl.
    rewrite Ht. reflexivity.
  - intros w event Hh Hp. unfold Scraper.post_to_blockchain.
    rewrite Hh, Hp. reflexivity.
Qed.

(** ** C5: pasting a feed URL *)

Lemma scrape_and_post_keeps_items (w : World) (st : Cli.Session) (url : string)
    (failed : Cli.message) :
  Cli.last_rss_items (Cli.scrape_and_post w st url failed).2
  = Cli.last_rss_items st.
Proof.
  unfold Cli.scrape_and_post. destruct (Cli.scrape_url w url); reflexivity.
Qed.

(** C5. The paste branch never assigns the feed items: after [v] with the
    URL of a feed on the clipboard the session has the items it had
    before, while the same URL typed at the prompt stores the first three
    items; so after the paste the input [1] selects nothing. *)
Theorem paste_does_not_store_feed_items :
  (forall w st, Cli.last_rss_items (Cli.paste w st).2 = Cli.last_rss_items st)
  /\ Cli.paste_from_clipboard news_world = Some "https://news.example/rss"
  /\ Cli.last_rss_items
       (Cli.after (Cli.turn news_world empty_session [Cli.Line "v"])) = []
  /\ Cli.last_rss_items
       (Cli.after (Cli.turn news_world empty_session
                     [Cli.Line "https://news.example/rss"]))
     = Cli.item_of <$> news_entries
  /\ Cli.trace (Cli.turn news_world
                  (Cli.after (Cli.turn news_world empty_session [Cli.Line "v"]))
                  [Cli.Line "1"])
     = [Cli.Say (Cli.UnknownCommand "1")].
Proof.
  split.
  - intros w st. unfold Cli.paste.
    destruct (Cli.paste_from_clipboard w) as [text|]; [|reflexivity].
    destruct (String.eqb text ""); [reflexivity|].
    destruct (_ || _); [|reflexivity].
    destruct (Cli.has_items _); [reflexivity|].
    pose proof (scrape_and_post_keeps_items w st text Cli.FailedParseUrl) as H.
    destruct (Cli.scrape_and_post w st text Cli.FailedParseUrl) as [tr st'].
    exact H.
  - repeat split; vm_compute; reflexivity.
Qed.

(** ** The dispatch of one line *)

Lemma split_nonempty (cmd first : string) (more : list string) :
  Str.split cmd = first :: more -> String.eqb cmd "" = false.
Proof.
  intros H. destruct (String.eqb_spec cmd "") as [->|]; [discriminate|reflexivity].
Qed.

(** A line whose first word is a number goes to the selection when the
    session holds feed items. *)
Lemma turn_selection (w : World) (st : Cli.Session) (raw first : string)
    (more : list string) (rest : list Cli.prompt_result) :
  Str.split (Str.strip raw) = first :: more ->
  Str.isdigit (Str.lower first) = true ->
  Cli.last_rss_items st <> [] ->
  Cli.turn w st (Cli.Line raw :: rest) =
  let '(tr, st', c) := Cli.selection w st (Str.lower first) (Str.join " " more) in
  {| Cli.trace := tr; Cli.after := st'; Cli.pending := rest; Cli.ctl := c |}.
Proof.
  intros Hsplit Hdigit Hitems. unfold Cli.turn.
  rewrite (split_nonempty _ _ _ Hsplit), Hsplit, Hdigit.
  destruct (Cli.last_rss_items st) eqn:E; [congruence|]. reflexivity.
Qed.


(** ** C9: selecting an article by its number *)




(** ** C10: posting the last event *)



(** The answer is stripped as [str.strip] does it: a no-break space
    before [yes] goes, and the event is posted. *)
Example no_break_space_yes_posts :
  confirms (nbsp +:+ "yes") = true
  /\ In (Cli.CallPost (Cli.fallback example_page))
        (Cli.trace (Cli.turn ledger_world session_with_event
                      [Cli.Line "post"; Cli.Line (nbsp +:+ "yes")])).
Proof. split; [reflexivity|]. vm_compute. right. left. reflexivity. Qed.


(** ** The loop ends *)

(** A turn that continues has read at least one input. *)
Lemma turn_consumes (w : World) (st : Cli.Session) (inputs : list Cli.prompt_result) :
  Cli.ctl (Cli.turn w st inputs) = Cli.Continue ->
  (length (Cli.pending (Cli.turn w st inputs)) < length inputs)%nat.
Proof.
  unfold Cli.turn, Cli.post.
  repeat (case_match; simpl; try discriminate; try lia).
Qed.

(** X20. The loop cannot go on without reading input: with one unit of
    fuel more than there are inputs, [interactive_mode] ends, by a [break]
    (at the latest at the end of the input) or by an uncaught
    exception. *)
Lemma interactive_mode_ends (w : World) (fuel : nat) (st : Cli.Session)
    (inputs : list Cli.prompt_result) :
  (length inputs < fuel)%nat ->
  exists tr st' c,
    Cli.interactive_mode w fuel st inputs = Some (tr, st', c)
    /\ c <> Cli.Continue.
Proof.
  revert st inputs. induction fuel as [|fuel IH]; intros st inputs Hlen; [lia|].
  simpl. pose proof (turn_consumes w st inputs) as Hc.
  destruct (Cli.ctl (Cli.turn w st inputs)) eqn:E.
  - destruct (IH (Cli.after (Cli.turn w st inputs))
                 (Cli.pending (Cli.turn w st inputs))) as (tr & st' & c & -> & Hne).
    { specialize (Hc eq_refl). lia. }
    simpl. eauto.
  - do 3 eexists. split; [reflexivity|discriminate].
  - do 3 eexists. split; [reflexivity|discriminate].
Qed.

Example session_run :
  Cli.interactive_mode news_world 5 empty_session
    [Cli.Line "https://news.example/rss"; Cli.Line "3"; Cli.Line "q"]
  = Some ([Cli.CallParseRss "https://news.example/rss";
           Cli.Say (Cli.FeedDetected "News");
           Cli.Say (Cli.FeedTable "News" (Cli.item_of <$> news_entries));
           Cli.Say (Cli.TipSelect 3);
           Cli.Say (Cli.InvalidArticle 2);
           Cli.Say Cli.Goodbye],
          listing, Cli.Break).
Proof. vm_compute. reflexivity. Qed.

(** * Further properties of the code *)

(** ** The retry loop *)

(** X1. [scrape] and [scrape_url] return the answer of the first of the
    attempts 0, 1, 2 that answers, and fail exactly when all three fail;
    there is never a fourth request: the result depends on the first
    three attempts only. *)
Theorem fetch_returns_first_answer (w w' : World) (url : string) :
  match Scraper.fetch w url 0 3 with
  | Some r =>
      exists k, (k < 3)%nat /\ http_get w url k = Some r
                /\ forall j, (j < k)%nat -> http_get w url j = None
  | None => forall k, (k < 3)%nat -> http_get w url k = None
  end
  /\ ((forall k, (k < 3)%nat -> http_get w' url k = http_get w url k) ->
      Scraper.fetch w' url 0 3 = Scraper.fetch w url 0 3).
Proof.
  split.
  - simpl.
    destruct (http_get w url 0) as [r|] eqn:E0.
    { exists 0%nat. split; [lia|]. split; [assumption|]. intros j Hj. lia. }
    destruct (http_get w url 1) as [r|] eqn:E1.
    { exists 1%nat. split; [lia|]. split; [assumption|].
      intros [|j] Hj; [assumption|lia]. }
    destruct (http_get w url 2) as [r|] eqn:E2.
    { exists 2%nat. split; [lia|]. split; [assumption|].
      intros [|[|j]] Hj; [assumption|assumption|lia]. }
    intros [|[|[|k]]] Hk; [assumption|assumption|assumption|lia].
  - intros H. simpl. rewrite !H by lia. reflexivity.
Qed.

(** ** What the removal of noise leaves *)

Lemma decompose_tags_list (names : list string) (t0 : string) (l : list node) :
  Forall (fun n => t0 ∉ concat (map tags (Html.decompose names n))) l ->
  t0 ∉ concat (map tags (concat (map (Html.decompose names) l))).
Proof.
  induction 1 as [|n l Hn _ IH]; simpl; [apply not_elem_of_nil|].
  rewrite map_app, concat_app. apply not_elem_of_app. split; assumption.
Qed.

Lemma decompose_tags (names : list string) (t0 : string) (n : node) :
  t0 ∈ names -> t0 ∉ concat (map tags (Html.decompose names n)).
Proof.
  intros Hin. induction n as [s|t cs IH] using node_induction.
  - simpl. apply not_elem_of_nil.
  - change (Html.decompose names (Elem t cs))
      with (if bool_decide (t ∈ names) then []
            else [Elem t (concat (map (Html.decompose names) cs))]).
    destruct (bool_decide_reflect (t ∈ names)) as [Ht|Ht].
    + simpl. apply not_elem_of_nil.
    + simpl. rewrite app_nil_r. apply not_elem_of_cons. split.
      * intros ->. contradiction.
      * apply decompose_tags_list. exact IH.
Qed.

Lemma decompose_strings_list (names : list string) (l : list node) :
  Forall (fun n => sublist (concat (map Html.strings (Html.decompose names n)))
                           (Html.strings n)) l ->
  sublist (concat (map Html.strings (concat (map (Html.decompose names) l))))
          (concat (map Html.strings l)).
Proof.
  induction 1 as [|n l Hn _ IH]; simpl; [constructor|].
  rewrite map_app, concat_app. apply sublist_app; assumption.
Qed.

Lemma decompose_strings (names : list string) (n : node) :
  sublist (concat (map Html.strings (Html.decompose names n))) (Html.strings n).
Proof.
  induction n as [s|t cs IH] using node_induction.
  - simpl. reflexivity.
  - change (Html.decompose names (Elem t cs))
      with (if bool_decide (t ∈ names) then []
            else [Elem t (concat (map (Html.decompose names) cs))]).
    destruct (bool_decide (t ∈ names)).
    + simpl. apply sublist_nil_l.
    + simpl. rewrite app_nil_r. apply decompose_strings_list. exact IH.
Qed.

(** X2. After the removal of the noise elements no element of a removed
    name is left at any depth of the document, and the strings of the
    document that remain are strings of the original document, in their
    order: the removal adds no text. *)
Theorem decompose_all_leaves_no_noise (names : list string) (doc : list node) :
  (forall t, t ∈ names ->
             t ∉ concat (map tags (Html.decompose_all names doc)))
  /\ sublist (concat (map Html.strings (Html.decompose_all names doc)))
             (concat (map Html.strings doc)).
Proof.
  unfold Html.decompose_all. split.
  - intros t Ht. apply decompose_tags_list. apply Forall_forall.
    intros n _. apply decompose_tags. exact Ht.
  - apply decompose_strings_list. apply Forall_forall.
    intros n _. apply decompose_strings.
Qed.

(** ** The event of [analyze] *)

(** X3. The source URL of the event is the URL of the page on every path
    of [analyze], in both programs: the response of the language model
    cannot set it. *)
Theorem analyze_keeps_source_url (w : World) (scraped : ScrapedPage) :
  Scraper.source_url (Scraper.analyze w scraped) = page_url scraped
  /\ Cli.source_url (Cli.analyze w scraped) = page_url scraped.
Proof.
  split.
  - unfold Scraper.analyze, Scraper.from_openai.
    destruct (openai w) as [chat|]; [simpl|reflexivity].
    destruct (chat _) as [text|]; [simpl|reflexivity].
    destruct (Scraper.from_response w scraped text) as [e|] eqn:He; [|reflexivity].
    apply scraper_from_response_inv in He.
    destruct He as (? & ? & _ & _ & _ & _ & _ & _ & _ & _ & H). exact H.
  - unfold Cli.analyze, Cli.from_openai.
    destruct (openai w) as [chat|]; [simpl|reflexivity].
    destruct (chat _) as [text|]; [simpl|reflexivity].
    destruct (Cli.from_response w scraped text) as [e|] eqn:He; [|reflexivity].
    apply cli_from_response_inv in He.
    destruct He as (? & ? & _ & _ & _ & _ & _ & _ & _ & H). exact H.
Qed.

(** X4. With a language model configured, [analyze] still returns the
    fallback event, in both programs, whenever the request raises, the
    response has no ['{'] before a ['}'], [json.loads] rejects the span,
    or the span parses to something that is not an object. *)
Theorem llm_failure_falls_back (w : World) (scraped : ScrapedPage)
    (chat : string -> option string) :
  openai w = Some chat ->
  match chat (Scraper.user_message scraped) with
  | None => True
  | Some text =>
      match Scraper.json_span text with
      | None => True
      | Some span =>
          match json_loads w span with
          | Some (PyDict _) => False
          | _ => True
          end
      end
  end ->
  Scraper.analyze w scraped = Scraper.fallback scraped
  /\ Cli.analyze w scraped = Cli.fallback scraped.
Proof.
  intros Hchat Hfail.
  assert (Hnone : response_object w scraped = None).
  { unfold response_object. rewrite Hchat. simpl.
    destruct (chat _) as [text|]; [simpl|reflexivity].
    destruct (Scraper.json_span text) as [span|]; [simpl|reflexivity].
    destruct (json_loads w span) as [[| | | | | |d]|]; try reflexivity.
    contradiction. }
  unfold Scraper.analyze, Cli.analyze.
  rewrite scraper_from_openai_eq, cli_from_openai_eq, Hnone. split; reflexivity.
Qed.

Lemma llm_failure_falls_back_witness :
  Scraper.title (Scraper.analyze unparsable_world example_page)
  = "Will 'Example Domain' predictions come true?".
Proof.
  destruct (llm_failure_falls_back unparsable_world example_page
              (fun _ => Some "no JSON here, sorry") eq_refl I) as [H _].
  rewrite H. reflexivity.
Defined.

(** ** An object wrapped in prose *)

Lemma app_cons (a : ascii) (s t : string) :
  String a s +:+ t = String a (s +:+ t).
Proof. reflexivity. Qed.

Lemma app_assoc_str (s t u : string) : (s +:+ t) +:+ u = s +:+ (t +:+ u).
Proof.
  induction s as [|a s IH]; [reflexivity|]. rewrite !app_cons, IH. reflexivity.
Qed.

Lemma len_app (s t : string) : Str.len (s +:+ t) = Str.len s + Str.len t.
Proof.
  unfold Str.len. induction s as [|a s IH]; [reflexivity|].
  rewrite app_cons. simpl String.length. lia.
Qed.

Lemma drop_app (s t : string) : Str.drop (String.length s) (s +:+ t) = t.
Proof.
  induction s as [|a s IH]; [apply drop_0|]. rewrite app_cons. exact IH.
Qed.

Lemma take_app (s t : string) : Str.take (String.length s) (s +:+ t) = s.
Proof.
  induction s as [|a s IH]; [destruct t; reflexivity|].
  rewrite app_cons. simpl. f_equal. exact IH.
Qed.

Lemma find_app_first (c : ascii) (pre rest : string) :
  Str.find c pre = -1 ->
  Str.find c (pre +:+ String c rest) = Str.len pre.
Proof.
  induction pre as [|a pre IH]; intros Hno.
  - simpl. rewrite Ascii.eqb_refl. reflexivity.
  - rewrite app_cons. simpl in *.
    destruct (Ascii.eqb a c); [discriminate|].
    destruct (Z.ltb_spec (Str.find c pre) 0) as [Hneg|Hpos].
    + destruct (find_spec c pre) as [[E _]|(i & E & _)]; [|lia].
      rewrite (IH E).
      assert (E' : (Str.len pre <? 0) = false)
        by (apply Z.ltb_ge; unfold Str.len; lia).
      rewrite E'. unfold Str.len. simpl String.length. lia.
    + lia.
Qed.

Lemma rfind_app_last (c : ascii) (s post : string) :
  Str.rfind c post = -1 ->
  Str.rfind c (s +:+ String c post) = Str.len s.
Proof.
  intros Hno. induction s as [|a s IH].
  - simpl. rewrite Hno. simpl. rewrite Ascii.eqb_refl. reflexivity.
  - rewrite app_cons. simpl. rewrite IH.
    assert (E : (0 <=? Str.len s) = true)
      by (apply Z.leb_le; unfold Str.len; lia).
    rewrite E. unfold Str.len. simpl String.length. lia.
Qed.

(** X5. When the response is an object between a preamble without ['{']
    and a postscript without ['}'], the span that [analyze] hands to
    [json.loads] is exactly the object: prose around it is cut off. *)
Theorem json_span_unwraps_object (pre mid post : string) :
  Str.find "{" pre = -1 ->
  Str.rfind "}" post = -1 ->
  Scraper.json_span (pre +:+ String "{" (mid +:+ String "}" post))
  = Some (String "{" (mid +:+ String "}" "")).
Proof.
  intros Hpre Hpost. unfold Scraper.json_span.
  rewrite (find_app_first _ _ _ Hpre).
  replace (pre +:+ String "{" (mid +:+ String "}" post))
    with ((pre +:+ String "{" mid) +:+ String "}" post)
    by (rewrite app_assoc_str, app_cons; reflexivity).
  rewrite (rfind_app_last _ _ _ Hpost).
  rewrite len_app.
  assert (Hlen : Str.len (String "{" mid) = 1 + Str.len mid)
    by (unfold Str.len; simpl String.length; lia).
  rewrite Hlen.
  assert (Hp : 0 <= Str.len pre) by (unfold Str.len; lia).
  assert (Hm : 0 <= Str.len mid) by (unfold Str.len; lia).
  assert (E1 : (0 <=? Str.len pre) = true) by (apply Z.leb_le; lia).
  assert (E2 : (Str.len pre <? Str.len pre + (1 + Str.len mid) + 1) = true)
    by (apply Z.ltb_lt; lia).
  rewrite E1, E2. simpl andb. f_equal.
  unfold Str.slice, Str.clamp.
  assert (Hall : Str.len ((pre +:+ String "{" mid) +:+ String "}" post)
                 = Str.len pre + (1 + Str.len mid) + (1 + Str.len post)).
  { rewrite !len_app, Hlen. unfold Str.len at 3. simpl String.length.
    unfold Str.len. lia. }
  rewrite Hall.
  assert (Hq : 0 <= Str.len post) by (unfold Str.len; lia).
  assert (E3 : (Str.len pre <? 0) = false) by (apply Z.ltb_ge; lia).
  assert (E4 : (Str.len pre + (1 + Str.len mid) + 1 <? 0) = false)
    by (apply Z.ltb_ge; lia).
  rewrite E3, E4. rewrite !Z.min_l by lia.
  replace (Z.to_nat (Str.len pre)) with (String.length pre)
    by (unfold Str.len; lia).
  replace (Z.to_nat (Str.len pre + (1 + Str.len mid) + 1 - Str.len pre))
    with (String.length (String "{" (mid +:+ String "}" "")))
    by (pose proof (len_app mid (String "}" "")) as H; unfold Str.len in *;
        simpl String.length in *; lia).
  rewrite app_assoc_str, app_cons, drop_app.
  replace (String "{" (mid +:+ String "}" post))
    with (String "{" (mid +:+ String "}" "") +:+ post)
    by (rewrite app_cons, app_assoc_str; reflexivity).
  apply take_app.
Qed.

Lemma json_span_unwraps_object_witness :
  Scraper.json_span ("Here is the market: " +:+ one_option_json +:+ " Good luck!")
  = Some one_option_json.
Proof.
  exact (json_span_unwraps_object "Here is the market: "
           (quote +:+ "options" +:+ quote +:+ ": [" +:+ quote +:+ "Yes" +:+ quote +:+ "]")
           " Good luck!" eq_refl eq_refl).
Defined.

(** ** The payload and the event *)

Lemma str_list_inj (l1 l2 : list string) :
  PyList (PyStr <$> l1) = PyList (PyStr <$> l2) -> l1 = l2.
Proof.
  intros [= H]. revert l2 H.
  induction l1 as [|a l1 IH]; intros [|b l2] H; try discriminate; [reflexivity|].
  injection H as -> H. f_equal. apply IH. exact H.
Qed.

Lemma cli_model_dump_inj (e1 e2 : Cli.PredictionEvent) :
  Cli.model_dump e1 = Cli.model_dump e2 -> e1 = e2.
Proof.
  intros H.
  assert (Ht : Cli.model_dump e1 !! "title" = Cli.model_dump e2 !! "title") by (rewrite H; reflexivity).
  assert (Hd : Cli.model_dump e1 !! "description" = Cli.model_dump e2 !! "description") by (rewrite H; reflexivity).
  assert (Hc : Cli.model_dump e1 !! "category" = Cli.model_dump e2 !! "category") by (rewrite H; reflexivity).
  assert (Ho : Cli.model_dump e1 !! "options" = Cli.model_dump e2 !! "options") by (rewrite H; reflexivity).
  assert (Hf : Cli.model_dump e1 !! "confidence" = Cli.model_dump e2 !! "confidence") by (rewrite H; reflexivity).
  assert (Hs : Cli.model_dump e1 !! "source_url" = Cli.model_dump e2 !! "source_url") by (rewrite H; reflexivity).
  clear H.
  change (Some (PyStr (Cli.title e1)) = Some (PyStr (Cli.title e2))) in Ht.
  change (Some (PyStr (Cli.description e1)) = Some (PyStr (Cli.description e2))) in Hd.
  change (Some (PyStr (Cli.category e1)) = Some (PyStr (Cli.category e2))) in Hc.
  change (Some (PyList (PyStr <$> Cli.options e1))
          = Some (PyList (PyStr <$> Cli.options e2))) in Ho.
  change (Some (PyFloat (Cli.confidence e1)) = Some (PyFloat (Cli.confidence e2))) in Hf.
  change (Some (PyStr (Cli.source_url e1)) = Some (PyStr (Cli.source_url e2))) in Hs.
  injection Ho as Ho. apply (f_equal PyList) in Ho. apply str_list_inj in Ho.
  destruct e1, e2; simpl in *. congruence.
Qed.

Lemma scraper_model_dump_inj (e1 e2 : Scraper.PredictionEvent) :
  Scraper.model_dump e1 = Scraper.model_dump e2 -> e1 = e2.
Proof.
  intros H.
  assert (Ht : Scraper.model_dump e1 !! "title" = Scraper.model_dump e2 !! "title") by (rewrite H; reflexivity).
  assert (Hd : Scraper.model_dump e1 !! "description" = Scraper.model_dump e2 !! "description") by (rewrite H; reflexivity).
  assert (Hc : Scraper.model_dump e1 !! "category" = Scraper.model_dump e2 !! "category") by (rewrite H; reflexivity).
  assert (Ho : Scraper.model_dump e1 !! "options" = Scraper.model_dump e2 !! "options") by (rewrite H; reflexivity).
  assert (Hf : Scraper.model_dump e1 !! "confidence" = Scraper.model_dump e2 !! "confidence") by (rewrite H; reflexivity).
  assert (Hs : Scraper.model_dump e1 !! "source_url" = Scraper.model_dump e2 !! "source_url") by (rewrite H; reflexivity).
  assert (Hr : Scraper.model_dump e1 !! "resolution_date" = Scraper.model_dump e2 !! "resolution_date") by (rewrite H; reflexivity).
  clear H.
  change (Some (PyStr (Scraper.title e1)) = Some (PyStr (Scraper.title e2))) in Ht.
  change (Some (PyStr (Scraper.description e1)) = Some (PyStr (Scraper.description e2))) in Hd.
  change (Some (PyStr (Scraper.category e1)) = Some (PyStr (Scraper.category e2))) in Hc.
  change (Some (PyList (PyStr <$> Scraper.options e1))
          = Some (PyList (PyStr <$> Scraper.options e2))) in Ho.
  change (Some (PyFloat (Scraper.confidence e1)) = Some (PyFloat (Scraper.confidence e2))) in Hf.
  change (Some (PyStr (Scraper.source_url e1)) = Some (PyStr (Scraper.source_url e2))) in Hs.
  change (Some (PyStr (Scraper.resolution_date e1))
          = Some (PyStr (Scraper.resolution_date e2))) in Hr.
  injection Ho as Ho. apply (f_equal PyList) in Ho. apply str_list_inj in Ho.
  destruct e1, e2; simpl in *. congruence.
Qed.

(** X6. The payload that is posted determines the event: in cli.py two
    events have the same payload exactly when they are equal, and in
    scraper.py likewise, the resolution date included; every field of the
    event can be read back from the payload. *)
Theorem payload_determines_event :
  (forall e1 e2 : Cli.PredictionEvent,
     Cli.payload e1 = Cli.payload e2 <-> e1 = e2)
  /\ (forall (w : World) (e1 e2 : Scraper.PredictionEvent),
        Scraper.payload w e1 = Scraper.payload w e2 <-> e1 = e2).
Proof.
  pose (event_part := fun p : pyval =>
          match p with PyDict m => m !! "event" | _ => None end).
  split.
  - intros e1 e2. split; [|intros ->; reflexivity]. intros H.
    assert (He : event_part (Cli.payload e1) = event_part (Cli.payload e2))
      by (rewrite H; reflexivity).
    change (Some (PyDict (Cli.model_dump e1)) = Some (PyDict (Cli.model_dump e2))) in He.
    apply cli_model_dump_inj.
    apply (f_equal (fun o => match o with Some (PyDict m) => m | _ => ∅ end)) in He.
    exact He.
  - intros w e1 e2. split; [|intros ->; reflexivity]. intros H.
    assert (He : event_part (Scraper.payload w e1) = event_part (Scraper.payload w e2))
      by (rewrite H; reflexivity).
    change (Some (PyDict (Scraper.model_dump e1))
            = Some (PyDict (Scraper.model_dump e2))) in He.
    apply scraper_model_dump_inj.
    apply (f_equal (fun o => match o with Some (PyDict m) => m | _ => ∅ end)) in He.
    exact He.
Qed.

(** ** What a turn of the session can change *)

Ltac in_trace := simpl; repeat (first [left; reflexivity | right]).

(** X7. One turn of the interactive loop changes [last_event] only to the
    event that [analyze] makes of a page that [scrape_url] returned in
    that turn, and changes the feed items only to the first items, at
    most 15, of a feed that [parse_rss] returned in that turn; whatever
    else the turn does (help, status, post, copy, a failed scrape or
    parse, an unknown command, an interrupt) leaves both as they were. *)
Theorem turn_changes (w : World) (st : Cli.Session) (inputs : list Cli.prompt_result) :
  (Cli.last_event (Cli.after (Cli.turn w st inputs)) = Cli.last_event st
   \/ exists url data,
        In (Cli.CallScrape url) (Cli.trace (Cli.turn w st inputs))
        /\ Cli.scrape_url w url = Some data
        /\ Cli.last_event (Cli.after (Cli.turn w st inputs))
           = Some (Cli.analyze w data))
  /\ (Cli.last_rss_items (Cli.after (Cli.turn w st inputs)) = Cli.last_rss_items st
      \/ exists url fd n,
           In (Cli.CallParseRss url) (Cli.trace (Cli.turn w st inputs))
           /\ Cli.parse_rss w url = Some fd /\ (n <= 15)%nat
           /\ Cli.last_rss_items (Cli.after (Cli.turn w st inputs))
              = take n (Cli.feed_items fd)).
Proof.
  unfold Cli.turn, Cli.post, Cli.selection, Cli.paste, Cli.autodetect, Cli.rss,
    Cli.scrape_and_post, Cli.has_items.
  repeat (case_match; simplify_eq/=).
  all: split;
    [ first [ left; reflexivity | left; assumption
            | right; do 2 eexists; split; [in_trace|];
              split; [eassumption|reflexivity] ]
    | first [ left; reflexivity
            | right; eexists _, _, 15%nat; split; [in_trace|];
              split; [eassumption|]; split; [lia|reflexivity]
            | right; eexists _, _, 3%nat; split; [in_trace|];
              split; [eassumption|]; split; [lia|reflexivity] ] ].
Qed.

(** One turn keeps the bound on the feed items and keeps an event that is
    there. *)
Lemma turn_keeps_invariants (w : World) (st : Cli.Session)
    (inputs : list Cli.prompt_result) :
  ((length (Cli.last_rss_items st) <= 15)%nat ->
   (length (Cli.last_rss_items (Cli.after (Cli.turn w st inputs))) <= 15)%nat)
  /\ (is_Some (Cli.last_event st) ->
      is_Some (Cli.last_event (Cli.after (Cli.turn w st inputs)))).
Proof.
  unfold Cli.turn, Cli.post, Cli.selection, Cli.paste, Cli.autodetect, Cli.rss,
    Cli.scrape_and_post, Cli.has_items.
  repeat (case_match; simplify_eq/=).
  all: split; [intros Hle|intros Hsome];
    first [ assumption | rewrite length_take; lia
          | by destruct Hsome | by eauto ].
Qed.

(** X8. Over a whole run of the loop the session never holds more than 15
    feed items if it started with at most 15, and an event, once there,
    is never lost: at the end of the run there still is one. *)
Theorem interactive_mode_keeps_invariants (w : World) (fuel : nat)
    (st st' : Cli.Session) (inputs : list Cli.prompt_result)
    (tr : list Cli.effect) (c : Cli.control) :
  Cli.interactive_mode w fuel st inputs = Some (tr, st', c) ->
  ((length (Cli.last_rss_items st) <= 15)%nat ->
   (length (Cli.last_rss_items st') <= 15)%nat)
  /\ (is_Some (Cli.last_event st) -> is_Some (Cli.last_event st')).
Proof.
  revert st inputs tr st' c.
  induction fuel as [|fuel IH]; intros st inputs tr st' c Hrun; [discriminate|].
  simpl in Hrun.
  pose proof (turn_keeps_invariants w st inputs) as Hone.
  destruct (Cli.ctl (Cli.turn w st inputs)).
  - destruct (Cli.interactive_mode w fuel _ _) as [[[tr0 st0] c0]|] eqn:Hrest;
      [|discriminate].
    simpl in Hrun. injection Hrun as <- <- <-.
    destruct (IH _ _ _ _ _ Hrest) as [H1 H2]. destruct Hone as [G1 G2].
    split; auto.
  - injection Hrun as <- <- <-. exact Hone.
  - injection Hrun as <- <- <-. exact Hone.
Qed.

Lemma interactive_mode_keeps_invariants_witness :
  (length (Cli.last_rss_items listing) <= 15)%nat.
Proof.
  refine (proj1 (interactive_mode_keeps_invariants news_world 5 empty_session listing
                   [Cli.Line "https://news.example/rss"; Cli.Line "3"; Cli.Line "q"]
                   _ Cli.Break _) _).
  - vm_compute. reflexivity.
  - simpl. lia.
Defined.

Lemma interactive_mode_ends_witness :
  exists tr st' c,
    Cli.interactive_mode news_world 3 empty_session [Cli.Line "help"; Cli.Line "status"]
    = Some (tr, st', c) /\ c <> Cli.Continue.
Proof.
  apply (interactive_mode_ends news_world 3 empty_session
           [Cli.Line "help"; Cli.Line "status"]).
  simpl. lia.
Defined.

(** ** Words of a line *)

Lemma lstrip_head (s : string) :
  Str.lstrip s = "" \/ exists c r, Str.lstrip s = String c r /\ Str.is_space c = false.
Proof.
  induction s as [|a s IH]; simpl; [left; reflexivity|].
  destruct (Str.is_space a) eqn:E; [exact IH|]. right. eauto.
Qed.

Lemma rstrip_head (c : ascii) (s : string) :
  Str.is_space c = false -> exists r, Str.rstrip (String c s) = String c r.
Proof.
  intros Hc. simpl. destruct (Str.rstrip s); [rewrite Hc|]; eauto.
Qed.

Lemma strip_head (s : string) :
  Str.strip s = "" \/ exists c r, Str.strip s = String c r /\ Str.is_space c = false.
Proof.
  unfold Str.strip. destruct (lstrip_head s) as [->|(c & r & -> & Hc)].
  - left. reflexivity.
  - right. destruct (rstrip_head c r Hc) as [r' ->]. eauto.
Qed.

Lemma split_go_some (cur : string) (s : string) :
  exists first more, Str.split_go (Some cur) s = first :: more.
Proof.
  revert cur. induction s as [|a s IH]; intros cur; simpl; [eauto|].
  destruct (Str.is_space a); simpl; [eauto|apply IH].
Qed.

(** A stripped line that is not empty has a first word. *)
Lemma split_strip_nonempty (raw : string) :
  Str.strip raw <> "" ->
  exists first more, Str.split (Str.strip raw) = first :: more.
Proof.
  intros Hne. destruct (strip_head raw) as [E|(c & r & E & Hc)]; [contradiction|].
  rewrite E. unfold Str.split. simpl. rewrite Hc. apply split_go_some.
Qed.

(** ** When the loop dies *)

(** X9. A turn of the interactive loop ends in an exception that the
    loop does not catch in each of these situations.  With a listing in
    the session: the first word is one that [isdigit] accepts and [int]
    does not convert (a superscript digit, or more than 4300 digits);
    the turn ends at [int(action)], before anything is printed or called,
    and the session is as it was.  With a listing again: the first word
    is a number [k] within the range of the listing, the scrape of item
    [k] succeeds, and the rest of the line names neither [json] nor
    [xml]; the panel reads [last_event.resolution_date], which the event
    class of cli.py does not have, and by then [last_event] is the new
    event, which was not posted.  And: the command is [copy] (or [c])
    with the argument [xml], there is a last event, and [dict_to_xml]
    raises on it; nothing was written to the clipboard. *)
Theorem turn_dies (w : World) (st : Cli.Session) (raw first : string)
    (more : list string) (rest : list Cli.prompt_result) :
  Str.split (Str.strip raw) = first :: more ->
  let action := Str.lower first in
  let args := Str.join " " more in
  let s := Cli.turn w st (Cli.Line raw :: rest) in
  (Str.isdigit action = true -> Cli.last_rss_items st <> [] ->
   Str.int action = None ->
   s = {| Cli.trace := []; Cli.after := st; Cli.pending := rest;
          Cli.ctl := Cli.Crash |})
  /\ (forall k item data,
        Str.int action = Some k -> 1 <= k ->
        Cli.last_rss_items st !! Z.to_nat (k - 1) = Some item ->
        Cli.scrape_url w (Cli.item_link item) = Some data ->
        Str.contains "json" (Str.lower args) = false ->
        Str.contains "xml" (Str.lower args) = false ->
        Cli.ctl s = Cli.Crash
        /\ Cli.after s = {| Cli.last_event := Some (Cli.analyze w data);
                            Cli.last_rss_items := Cli.last_rss_items st |}
        /\ forall e, ~ In (Cli.CallPost e) (Cli.trace s))
  /\ (forall event,
        action = "copy" \/ action = "c" ->
        Str.lower args = "xml" ->
        Cli.last_event st = Some event ->
        dict_to_xml_returns w (Cli.model_dump event) = false ->
        s = {| Cli.trace := []; Cli.after := st; Cli.pending := rest;
               Cli.ctl := Cli.Crash |}).
Proof.
  intros Hsplit action args s. subst s. split; [|split].
  - intros Hdigit Hitems Hint.
    rewrite (turn_selection w st raw first more rest Hsplit Hdigit Hitems).
    unfold Cli.selection. fold action. rewrite Hint. reflexivity.
  - intros k item data Hint H1 Hitem Hs Hj Hx.
    assert (Hdigit : Str.isdigit action = true)
      by (apply int_isdigit; rewrite Hint; eauto).
    assert (Hne : Cli.last_rss_items st <> []).
    { intros E. rewrite E in Hitem. discriminate. }
    rewrite (turn_selection w st raw first more rest Hsplit Hdigit Hne).
    unfold Cli.selection. fold action. rewrite Hint.
    pose proof (lookup_lt_Some _ _ _ Hitem) as Hlt.
    assert (E1 : (1 <=? k) = true) by (apply Z.leb_le; lia).
    assert (E2 : (k <=? Z.of_nat (length (Cli.last_rss_items st))) = true)
      by (apply Z.leb_le; lia).
    rewrite E1, E2, Hitem, Hs. fold args. rewrite Hj, Hx. simpl.
    split; [reflexivity|]. split; [reflexivity|].
    intros e [H|[H|[]]]; discriminate.
  - intros event Haction Hargs Hev Hbad.
    unfold Cli.turn.
    rewrite (split_nonempty _ _ _ Hsplit), Hsplit. fold action. fold args.
    assert (Hcopy : Cli.copy w st args = ([], Cli.Crash)).
    { unfold Cli.copy. rewrite Hev.
      destruct (String.eqb_spec args "") as [E|_].
      - rewrite E in Hargs. discriminate.
      - rewrite Hargs, Hbad. reflexivity. }
    destruct Haction as [-> | ->]; cbn; rewrite Hcopy; reflexivity.
Qed.

(** The superscript two is a digit to [isdigit] and no number to [int]:
    typed against a listing, it ends the loop. *)
Lemma turn_dies_witness :
  Cli.turn news_world listing [Cli.Line (String "178"%char "")]
  = {| Cli.trace := []; Cli.after := listing; Cli.pending := [];
       Cli.ctl := Cli.Crash |}.
Proof.
  refine (proj1 (turn_dies news_world listing (String "178"%char "")
                   (String "178"%char "") [] [] eq_refl) eq_refl _ eq_refl).
  discriminate.
Defined.

(** So does a number of 4301 digits, while one of 4300 digits is out of
    range. *)
Example long_number_dies :
  Cli.ctl (Cli.turn news_world listing [Cli.Line (repeat_char "1" 4301)])
  = Cli.Crash
  /\ Cli.trace (Cli.turn news_world listing [Cli.Line (repeat_char "1" 4300)])
     = [Cli.Say (Cli.InvalidArticle 2)].
Proof. split; vm_compute; reflexivity. Qed.

(** ** A bare URL at the prompt *)

Lemma prefix_app (p s : string) :
  String.prefix p s = true -> exists r, s = p +:+ r.
Proof.
  revert s. induction p as [|a p IH]; intros s H.
  - exists s. reflexivity.
  - destruct s as [|b s]; [discriminate|]. simpl in H.
    destruct (ascii_dec a b) as [->|]; [|discriminate].
    destruct (IH s H) as [r ->]. exists r. reflexivity.
Qed.

Lemma app_nil_r_str (s : string) : s +:+ "" = s.
Proof. induction s as [|a s IH]; [reflexivity|]. rewrite app_cons, IH. reflexivity. Qed.

(** The first word of a line begins with the word in progress. *)
Lemma split_go_prefix (cur : string) (s first : string) (more : list string) :
  Str.split_go (Some cur) s = first :: more -> exists x, first = cur +:+ x.
Proof.
  revert cur. induction s as [|a s IH]; intros cur; simpl.
  - intros [= <- _]. exists "". symmetry. apply app_nil_r_str.
  - destruct (Str.is_space a); simpl.
    + intros [= <- _]. exists "". symmetry. apply app_nil_r_str.
    + intros H. destruct (IH _ H) as [x ->].
      exists (String a x). rewrite app_assoc_str. reflexivity.
Qed.

(** A line that starts with [http] has a first word that starts with it. *)
Lemma first_word_http (r first : string) (more : list string) :
  Str.split ("http" +:+ r) = first :: more ->
  exists x, first = String "h" (String "t" (String "t" (String "p" x))).
Proof.
  unfold Str.split.
  change (Str.split_go None ("http" +:+ r))
    with (Str.split_go (Some "http") r).
  intros H. destruct (split_go_prefix _ _ _ _ H) as [x ->]. exists x. reflexivity.
Qed.

Lemma url_starts_http (cmd : string) :
  Str.startswith cmd "http://" || Str.startswith cmd "https://" = true ->
  exists r, cmd = "http" +:+ r.
Proof.
  unfold Str.startswith. intros H. apply orb_true_iff in H.
  destruct H as [H|H]; apply prefix_app in H; destruct H as [r ->].
  - exists ("://" +:+ r). reflexivity.
  - exists ("s://" +:+ r). reflexivity.
Qed.

(** A line that starts with [http://] or [https://] goes to the last
    branch of the dispatch. *)
Lemma turn_url (w : World) (st : Cli.Session) (raw first : string)
    (more : list string) (rest : list Cli.prompt_result) :
  Str.startswith (Str.strip raw) "http://"
  || Str.startswith (Str.strip raw) "https://" = true ->
  Str.split (Str.strip raw) = first :: more ->
  Cli.turn w st (Cli.Line raw :: rest) =
  let '(tr, st') := Cli.autodetect w st (Str.strip raw) (Str.lower first) in
  {| Cli.trace := tr; Cli.after := st'; Cli.pending := rest; Cli.ctl := Cli.Continue |}.
Proof.
  intros Hurl Hsplit.
  destruct (url_starts_http _ Hurl) as [r Hr].
  pose proof Hsplit as Hfirst. rewrite Hr in Hfirst.
  apply first_word_http in Hfirst. destruct Hfirst as [x ->].
  unfold Cli.turn.
  rewrite (split_nonempty _ _ _ Hsplit), Hsplit. reflexivity.
Qed.

Lemma scrape_and_post_spec (w : World) (st : Cli.Session) (url : string)
    (failed : Cli.message) (pre : list Cli.effect) (rest : list Cli.prompt_result) :
  (forall e, ~ In (Cli.CallPost e) pre) ->
  scraped_as_page w st url
    {| Cli.trace := pre ++ (Cli.scrape_and_post w st url failed).1;
       Cli.after := (Cli.scrape_and_post w st url failed).2;
       Cli.pending := rest; Cli.ctl := Cli.Continue |}.
Proof.
  intros Hpre. unfold scraped_as_page, Cli.scrape_and_post. simpl.
  destruct (Cli.scrape_url w url) as [data|]; simpl.
  - split; [apply in_or_app; right; left; reflexivity|].
    split; [reflexivity|]. split; [reflexivity|].
    apply in_or_app. right. right. right. left. reflexivity.
  - split; [apply in_or_app; right; left; reflexivity|].
    split; [reflexivity|]. split; [reflexivity|].
    intros e Hin. apply in_app_or in Hin. destruct Hin as [Hin|Hin].
    + exact (Hpre e Hin).
    + destruct Hin as [H|[H|[]]]; discriminate.
Qed.

(** X10. A line that starts with [http://] or [https://] is first tried
    as a feed. If it parses to a feed with at least one item, the session
    stores the first three items, keeps its last event, and neither
    scrapes nor posts anything. Otherwise (no feed, or a feed without
    items) the same URL goes through the page pipeline: it is scraped, and
    on success the event is stored and posted. The loop continues either
    way. *)
Theorem bare_url_is_feed_or_page (w : World) (st : Cli.Session) (raw : string)
    (rest : list Cli.prompt_result) :
  Str.startswith (Str.strip raw) "http://"
  || Str.startswith (Str.strip raw) "https://" = true ->
  let url := Str.strip raw in
  let s := Cli.turn w st (Cli.Line raw :: rest) in
  Cli.ctl s = Cli.Continue
  /\ In (Cli.CallParseRss url) (Cli.trace s)
  /\ match Cli.parse_rss w url with
     | Some fd =>
         if Nat.eqb (length (Cli.feed_items fd)) 0 then scraped_as_page w st url s
         else
           Cli.after s = {| Cli.last_event := Cli.last_event st;
                            Cli.last_rss_items := take 3 (Cli.feed_items fd) |}
           /\ (forall u, ~ In (Cli.CallScrape u) (Cli.trace s))
           /\ (forall e, ~ In (Cli.CallPost e) (Cli.trace s))
     | None => scraped_as_page w st url s
     end.
Proof.
  intros Hurl url s. subst s.
  assert (Hne : Str.strip raw <> "").
  { intros E. rewrite E in Hurl. discriminate. }
  destruct (split_strip_nonempty raw Hne) as (first & more & Hsplit).
  rewrite (turn_url w st raw first more rest Hurl Hsplit).
  unfold Cli.autodetect. rewrite Hurl. fold url. unfold Cli.has_items.
  assert (Hpage : forall p,
    (let '(tr, st') :=
       let '(tr, st') := Cli.scrape_and_post w st url Cli.FailedParseUrlNotRss in
       (Cli.CallParseRss url :: tr, st') in
     {| Cli.trace := tr; Cli.after := st'; Cli.pending := rest;
        Cli.ctl := Cli.Continue |}) = p ->
    Cli.ctl p = Cli.Continue /\ In (Cli.CallParseRss url) (Cli.trace p)
    /\ scraped_as_page w st url p).
  { intros p <-.
    pose proof (scrape_and_post_spec w st url Cli.FailedParseUrlNotRss
                  [Cli.CallParseRss url] rest) as H.
    destruct (Cli.scrape_and_post w st url Cli.FailedParseUrlNotRss) as [tr st'].
    simpl in *. split; [reflexivity|]. split; [left; reflexivity|].
    apply H. intros e [E|[]]. discriminate. }
  destruct (Cli.parse_rss w url) as [fd|].
  - destruct (Nat.eqb (length (Cli.feed_items fd)) 0).
    + destruct (Hpage _ eq_refl) as (H1 & H2 & H3). auto.
    + simpl. split; [reflexivity|]. split; [left; reflexivity|].
      split; [reflexivity|]. split.
      * intros u [H|[H|[H|[H|[]]]]]; discriminate.
      * intros e [H|[H|[H|[H|[]]]]]; discriminate.
  - destruct (Hpage _ eq_refl) as (H1 & H2 & H3). auto.
Qed.

Lemma bare_url_is_feed_or_page_witness :
  Cli.after (Cli.turn news_world empty_session
               [Cli.Line " https://news.example/rss "])
  = listing.
Proof.
  destruct (bare_url_is_feed_or_page news_world empty_session
              " https://news.example/rss " [] eq_refl) as (_ & _ & H).
  vm_compute in H. destruct H as [H _]. vm_compute. exact H.
Defined.

(** A line whose first word is [scrape], in any case, goes to the scrape
    branch. *)
Lemma turn_scrape (w : World) (st : Cli.Session) (raw first : string)
    (more : list string) (rest : list Cli.prompt_result) :
  Str.split (Str.strip raw) = first :: more ->
  Str.lower first = "scrape" ->
  Cli.turn w st (Cli.Line raw :: rest) =
  if String.eqb (Str.join " " more) "" then
    {| Cli.trace := [Cli.Say Cli.UsageScrape]; Cli.after := st;
       Cli.pending := rest; Cli.ctl := Cli.Continue |}
  else
    {| Cli.trace := (Cli.scrape_and_post w st (Str.join " " more) Cli.FailedScrape).1;
       Cli.after := (Cli.scrape_and_post w st (Str.join " " more) Cli.FailedScrape).2;
       Cli.pending := rest; Cli.ctl := Cli.Continue |}.
Proof.
  intros Hsplit Haction. unfold Cli.turn.
  rewrite (split_nonempty _ _ _ Hsplit), Hsplit, Haction.
  change (Str.isdigit "scrape") with false. cbn [andb].
  change (bool_decide ("scrape" ∈ ["exit"; "quit"; "q"])) with false.
  change (String.eqb "scrape" "help") with false.
  change (String.eqb "scrape" "status") with false.
  change (String.eqb "scrape" "scrape") with true. cbv iota.
  destruct (String.eqb (Str.join " " more) ""); [reflexivity|].
  destruct (Cli.scrape_and_post w st (Str.join " " more) Cli.FailedScrape).
  reflexivity.
Qed.

(** X11. The command [scrape] without an argument only prints its usage.
    With an argument it runs the page pipeline on the words after the
    command, joined by single spaces: a failed scrape leaves the session
    as it was and posts nothing; a successful one stores the event of the
    page as the last event, whether the post that follows succeeds or
    not, and posts exactly that event. It never reads a feed. *)
Theorem scrape_command_runs_pipeline (w : World) (st : Cli.Session)
    (raw first : string) (more : list string) (rest : list Cli.prompt_result) :
  Str.split (Str.strip raw) = first :: more ->
  Str.lower first = "scrape" ->
  let url := Str.join " " more in
  let s := Cli.turn w st (Cli.Line raw :: rest) in
  (forall u, ~ In (Cli.CallParseRss u) (Cli.trace s))
  /\ if String.eqb url "" then
       Cli.trace s = [Cli.Say Cli.UsageScrape] /\ Cli.after s = st
     else scraped_as_page w st url s.
Proof.
  intros Hsplit Haction url s. subst s.
  rewrite (turn_scrape w st raw first more rest Hsplit Haction). fold url.
  destruct (String.eqb url "").
  - split; [|split; reflexivity]. intros u [H|[]]. discriminate.
  - split.
    + unfold Cli.scrape_and_post. destruct (Cli.scrape_url w url); simpl.
      * intros u [H|[H|[H|H]]]; try discriminate.
        unfold Cli.report_post in H.
        repeat (case_match; simpl in H);
          repeat (destruct H as [H|H]; try discriminate); assumption.
      * intros u [H|[H|[]]]; discriminate.
    + apply (scrape_and_post_spec w st url Cli.FailedScrape [] rest).
      intros e [].
Qed.

Lemma scrape_command_runs_pipeline_witness :
  Cli.last_event (Cli.after (Cli.turn news_world empty_session
                     [Cli.Line "SCRAPE https://news.example/1"]))
  = Some (Cli.analyze news_world
            {| page_title := "Untitled"; page_content := repeat_char "a" 120;
               page_url := "https://news.example/1";
               page_domain := "news.example" |}).
Proof.
  destruct (scrape_command_runs_pipeline news_world empty_session
              "SCRAPE https://news.example/1" "SCRAPE" ["https://news.example/1"] []
              eq_refl eq_refl) as [_ H].
  vm_compute in H. destruct H as (_ & _ & H & _).
  vm_compute. exact H.
Defined.

(** ** The clipboard *)

Lemma lstrip_blank (s : string) :
  (forall k c, String.get k s = Some c -> Str.is_space c = true) ->
  Str.lstrip s = "".
Proof.
  induction s as [|a s IH]; intros H; [reflexivity|]. simpl.
  rewrite (H 0%nat a eq_refl). apply IH. intros k c Hk. exact (H (S k) c Hk).
Qed.

(** X12. [paste] reports an empty clipboard, calls nothing else and
    leaves the session as it is when the clipboard cannot be read (the
    reader fails or returns a non-zero code) and also when it holds
    nothing but whitespace; a clipboard text that does not start with
    [http://] or [https://] is reported as not a URL, again with no call
    and no change. *)
Theorem paste_without_url_does_nothing (w : World) (st : Cli.Session) :
  match get_clipboard w with
  | None => Cli.paste w st = ([Cli.CallClipboardRead; Cli.Say Cli.ClipboardEmpty], st)
  | Some (code, out) =>
      (code <> 0 ->
       Cli.paste w st = ([Cli.CallClipboardRead; Cli.Say Cli.ClipboardEmpty], st))
      /\ ((forall k c, String.get k out = Some c -> Str.is_space c = true) ->
          Cli.paste w st = ([Cli.CallClipboardRead; Cli.Say Cli.ClipboardEmpty], st))
      /\ (code = 0 -> Str.strip out <> "" ->
          Str.startswith (Str.strip out) "http://"
          || Str.startswith (Str.strip out) "https://" = false ->
          Cli.paste w st
          = ([Cli.CallClipboardRead;
              Cli.Say (Cli.NotAUrl (Str.upto (Str.strip out) 50))], st))
  end.
Proof.
  unfold Cli.paste, Cli.paste_from_clipboard.
  destruct (get_clipboard w) as [[code out]|]; [|reflexivity].
  split; [|split].
  - intros Hcode. destruct (Z.eqb_spec code 0); [contradiction|reflexivity].
  - intros Hblank. destruct (code =? 0); [|reflexivity].
    unfold Str.strip. rewrite (lstrip_blank _ Hblank). reflexivity.
  - intros -> Hne Hnot. simpl.
    destruct (String.eqb_spec (Str.strip out) ""); [contradiction|].
    rewrite Hnot. reflexivity.
Qed.

(** A no-break space before the URL on the clipboard is stripped with
    the line end, and the text is taken as a URL. *)
Example no_break_space_before_url :
  Cli.paste_from_clipboard nbsp_clipboard_world = Some "https://news.example/rss"
  /\ In (Cli.CallParseRss "https://news.example/rss")
        (Cli.paste nbsp_clipboard_world empty_session).1.
Proof. split; [reflexivity|]. vm_compute. do 2 right. left. reflexivity. Qed.

(** ** A listing, then a number *)

(** A line whose first word is [rss], in any case, goes to the rss
    branch. *)
Lemma turn_rss (w : World) (st : Cli.Session) (raw first : string)
    (more : list string) (rest : list Cli.prompt_result) :
  Str.split (Str.strip raw) = first :: more ->
  Str.lower first = "rss" ->
  Cli.turn w st (Cli.Line raw :: rest) =
  {| Cli.trace := (Cli.rss w st (Str.join " " more)).1;
     Cli.after := (Cli.rss w st (Str.join " " more)).2;
     Cli.pending := rest; Cli.ctl := Cli.Continue |}.
Proof.
  intros Hsplit Haction. unfold Cli.turn.
  rewrite (split_nonempty _ _ _ Hsplit), Hsplit, Haction.
  change (Str.isdigit "rss") with false. cbn [andb].
  change (bool_decide ("rss" ∈ ["exit"; "quit"; "q"])) with false.
  change (String.eqb "rss" "help") with false.
  change (String.eqb "rss" "status") with false.
  change (String.eqb "rss" "scrape") with false.
  change (String.eqb "rss" "rss") with true. cbv iota.
  destruct (Cli.rss w st (Str.join " " more)). reflexivity.
Qed.

(** X13. After [rss URL] on a feed that parses, the session holds the
    first 15 items of the feed (all of them when there are fewer) and its
    last event is untouched; the next line is still to be read. A number
    typed next (a word that [int] reads: decimal digits, at most 4300) is
    taken against that listing: within [1 .. min(15, n)] it scrapes the
    link of the feed's item of that number, outside it the turn reports
    the invalid number with the range of the listing. *)
Theorem number_after_rss_selects_from_feed (w : World) (st : Cli.Session)
    (raw1 first1 : string) (more1 : list string)
    (raw2 first2 : string) (more2 : list string)
    (rest : list Cli.prompt_result) (fd : Cli.Feed) (k : Z) :
  Str.split (Str.strip raw1) = first1 :: more1 ->
  Str.lower first1 = "rss" ->
  Str.join " " more1 <> "" ->
  Cli.parse_rss w (Str.join " " more1) = Some fd ->
  Cli.feed_items fd <> [] ->
  Str.split (Str.strip raw2) = first2 :: more2 ->
  Str.int (Str.lower first2) = Some k ->
  let shown := Nat.min 15 (length (Cli.feed_items fd)) in
  let s1 := Cli.turn w st (Cli.Line raw1 :: Cli.Line raw2 :: rest) in
  let s2 := Cli.turn w (Cli.after s1) (Cli.pending s1) in
  Cli.after s1 = {| Cli.last_event := Cli.last_event st;
                    Cli.last_rss_items := take 15 (Cli.feed_items fd) |}
  /\ length (Cli.last_rss_items (Cli.after s1)) = shown
  /\ (1 <= k <= Z.of_nat shown ->
      exists item,
        Cli.feed_items fd !! Z.to_nat (k - 1) = Some item
        /\ In (Cli.CallScrape (Cli.item_link item)) (Cli.trace s2))
  /\ (~ (1 <= k <= Z.of_nat shown) ->
      Cli.trace s2 = [Cli.Say (Cli.InvalidArticle shown)]
      /\ Cli.after s2 = Cli.after s1).
Proof.
  intros Hsplit1 Hrss Hurl Hfeed Hitems Hsplit2 Hint shown s1 s2.
  assert (Hdigit : Str.isdigit (Str.lower first2) = true)
    by (apply int_isdigit; rewrite Hint; eauto).
  assert (Hs1 : s1 = {| Cli.trace := [Cli.CallParseRss (Str.join " " more1);
                                      Cli.Say (Cli.FeedTable (Cli.feed_title fd)
                                                 (take 15 (Cli.feed_items fd)));
                                      Cli.Say (Cli.TipSelect
                                                 (length (take 15 (Cli.feed_items fd))))];
                        Cli.after := {| Cli.last_event := Cli.last_event st;
                                        Cli.last_rss_items := take 15 (Cli.feed_items fd) |};
                        Cli.pending := Cli.Line raw2 :: rest;
                        Cli.ctl := Cli.Continue |}).
  { subst s1. rewrite (turn_rss w st raw1 first1 more1 _ Hsplit1 Hrss).
    unfold Cli.rss.
    destruct (String.eqb_spec (Str.join " " more1) ""); [contradiction|].
    rewrite Hfeed. reflexivity. }
  assert (Hlen : length (take 15 (Cli.feed_items fd)) = shown)
    by (rewrite length_take; reflexivity).
  assert (Hne : take 15 (Cli.feed_items fd) <> []).
  { destruct (Cli.feed_items fd); [contradiction|discriminate]. }
  subst s2. rewrite Hs1. cbn [Cli.after Cli.pending].
  split; [reflexivity|]. split; [exact Hlen|].
  rewrite (turn_selection w {| Cli.last_event := Cli.last_event st;
                               Cli.last_rss_items := take 15 (Cli.feed_items fd) |}
             raw2 first2 more2 rest Hsplit2 Hdigit Hne).
  unfold Cli.selection. cbn [Cli.last_rss_items]. rewrite Hlen, Hint.
  destruct (Z.leb_spec 1 k) as [H1|H1]; cbn [andb].
  2: { split; [intros ?; lia|]. intros _. split; reflexivity. }
  destruct (Z.leb_spec k (Z.of_nat shown)) as [H2|H2].
  2: { split; [intros ?; lia|]. intros _. split; reflexivity. }
  split; [|intros ?; lia]. intros _.
  destruct (lookup_lt_is_Some_2 (take 15 (Cli.feed_items fd)) (Z.to_nat (k - 1)))
    as [item Hitem]; [lia|].
  rewrite Hitem. exists item. split.
  - rewrite lookup_take_Some in Hitem. tauto.
  - destruct (Cli.scrape_url w (Cli.item_link item)); [|right; left; reflexivity].
    destruct (_ || _); right; left; reflexivity.
Qed.

Lemma number_after_rss_selects_from_feed_witness :
  In (Cli.CallScrape "https://news.example/2")
     (Cli.trace (Cli.turn news_world listing [Cli.Line "2 xml"])).
Proof.
  destruct (number_after_rss_selects_from_feed news_world empty_session
              "rss https://news.example/rss" "rss" ["https://news.example/rss"]
              "2 xml" "2" ["xml"] []
              {| Cli.feed_title := "News"; Cli.feed_link := "https://news.example/rss";
                 Cli.feed_items := Cli.item_of <$> news_entries |} 2
              eq_refl eq_refl) as (_ & _ & Hin & _);
    [discriminate|reflexivity|discriminate|reflexivity|reflexivity|].
  destruct Hin as (item & Hitem & Hin); [vm_compute; split; discriminate|].
  vm_compute in Hitem. injection Hitem as <-. exact Hin.
Defined.

(** ** The single-shot programs *)

(** [scrape] writes nothing when it returns a page. *)
Lemma scrape_stderr_quiet (w : World) (url : string) (page : ScrapedPage) :
  Scraper.scrape w url = Some page -> Scraper.scrape_stderr w url = [].
Proof.
  unfold Scraper.scrape, Scraper.scrape_stderr.
  destruct (Scraper.fetch w url 0 3); [|discriminate].
  destruct (Str.len _ <? 100); [discriminate|reflexivity].
Qed.

(** [post_to_blockchain] writes nothing when it returns an identifier
    that is truthy. *)
Lemma post_stderr_quiet (w : World) (event : Scraper.PredictionEvent) (m : pyval) :
  Scraper.post_to_blockchain w event = Returns m -> Py.truthy m = true ->
  Scraper.post_stderr w event = [].
Proof.
  unfold Scraper.post_to_blockchain, Scraper.post_stderr.
  destruct (health w) as [status|]; [|intros [= <-]; discriminate].
  destruct (negb (status =? 200)); [intros [= <-]; discriminate|].
  destruct (http_post w _) as [r|]; [reflexivity|intros [= <-]; discriminate].
Qed.

(** X14. [main] of scraper.py exits with status 1 exactly when the scrape
    fails; it has then written one line, on the error stream (that the
    scrape failed when the last request failed, that the content is too
    short otherwise), and nothing on the standard output. Without
    [--post] the event service plays no part in what it does. With
    [--post], a post that does not go through (unhealthy service, request
    error, or a response without a truthy identifier) still ends with
    status 0: after the lines of [analyze] and of [post_to_blockchain] on
    the error stream comes the warning, then the event without a market
    id; a post that returns a truthy identifier writes no warning and
    adds the identifier to the output as [market_id]. *)
Theorem main_outcome (w : World) (url : string) (post json : bool) :
  ((exists out, Scraper.main w url post json = Returns (1, out))
   <-> Scraper.scrape w url = None)
  /\ (Scraper.scrape w url = None ->
      Scraper.main w url post json =
      Returns (1, match Scraper.fetch w url 0 3 with
                  | None => [Scraper.ScrapeFailed]
                  | Some _ => [Scraper.ContentTooShort]
                  end))
  /\ (forall h p,
        Scraper.main (with_service w h p) url false json
        = Scraper.main w url false json)
  /\ (forall page m,
        Scraper.scrape w url = Some page ->
        Scraper.post_to_blockchain w (Scraper.analyze w page) = Returns m ->
        Scraper.main w url true json =
        Returns (0,
          Scraper.analyze_stderr w page ++
          if Py.truthy m then
            [if json then
               Scraper.JsonDump (<["market_id" := m]>
                                   (Scraper.model_dump (Scraper.analyze w page)))
             else Scraper.TextReport (Scraper.analyze w page) (Some m)]
          else
            Scraper.post_stderr w (Scraper.analyze w page) ++
            [Scraper.FailedToPost;
             if json then Scraper.JsonDump (Scraper.model_dump (Scraper.analyze w page))
             else Scraper.TextReport (Scraper.analyze w page) None])).
Proof.
  split; [|split; [|split]].
  - unfold Scraper.main. destruct (Scraper.scrape w url) as [page|].
    + split; [|discriminate]. intros [out H]. destruct post; simpl in H.
      * destruct (Scraper.post_to_blockchain w _) as [m|]; discriminate.
      * discriminate.
    + split; [reflexivity|]. intros _. eauto.
  - intros Hs. unfold Scraper.main. rewrite Hs. f_equal. f_equal.
    unfold Scraper.scrape in Hs. unfold Scraper.scrape_stderr.
    destruct (Scraper.fetch w url 0 3); [|reflexivity].
    destruct (Str.len _ <? 100); [reflexivity|discriminate].
  - intros h p. reflexivity.
  - intros page m Hs Hp. unfold Scraper.main.
    rewrite Hs, Hp, (scrape_stderr_quiet w url page Hs).
    destruct (Py.truthy m) eqn:Hm.
    + rewrite (post_stderr_quiet w _ m Hp Hm). reflexivity.
    + simpl. rewrite <- app_assoc. reflexivity.
Qed.






(** ** Tags and the banner *)

Lemma get_replace_char (a b : ascii) (s : string) (k : nat) :
  String.get k (Str.replace_char a b s)
  = (fun c => if Ascii.eqb c a then b else c) <$> String.get k s.
Proof.
  revert k. induction s as [|c s IH]; intros [|k]; simpl; try reflexivity.
  apply IH.
Qed.

Lemma length_replace_char (a b : ascii) (s : string) :
  String.length (Str.replace_char a b s) = String.length s.
Proof. induction s as [|c s IH]; simpl; [reflexivity|]. rewrite IH. reflexivity. Qed.

(** X18. The tag that [dict_to_xml] makes of a key has the length of the
    key and holds neither a space nor a hyphen: each of these is replaced
    by an underscore, and every other character stays where it is. *)
Theorem xml_tag_has_no_space_or_hyphen (key : string) :
  String.length (Cli.xml_tag key) = String.length key
  /\ (forall k c, String.get k (Cli.xml_tag key) = Some c ->
                  c <> " "%char /\ c <> "-"%char)
  /\ (forall k c, String.get k key = Some c ->
                  String.get k (Cli.xml_tag key)
                  = Some (if Ascii.eqb c " " || Ascii.eqb c "-" then "_"%char else c)).
Proof.
  unfold Cli.xml_tag.
  assert (Hget : forall k c, String.get k key = Some c ->
            String.get k (Str.replace_char "-" "_" (Str.replace_char " " "_" key))
            = Some (if Ascii.eqb c " " || Ascii.eqb c "-" then "_"%char else c)).
  { intros k c Hk. rewrite !get_replace_char, Hk. simpl.
    destruct (Ascii.eqb_spec c " ") as [->|Hs]; [reflexivity|].
    destruct (Ascii.eqb c "-"); reflexivity. }
  split; [rewrite !length_replace_char; reflexivity|]. split; [|exact Hget].
  intros k c Hk.
  destruct (String.get k key) as [c0|] eqn:E.
  - rewrite (Hget k c0 E) in Hk. injection Hk as <-.
    destruct (Ascii.eqb_spec c0 " ") as [->|Hs]; simpl; [split; discriminate|].
    destruct (Ascii.eqb_spec c0 "-") as [->|Hh]; [split; discriminate|].
    split; assumption.
  - rewrite !get_replace_char, E in Hk. discriminate.
Qed.

Lemma drop_length (n : nat) (s : string) :
  String.length (Str.drop n s) = (String.length s - n)%nat.
Proof.
  revert s; induction n as [|n IH]; intros [|c s]; simpl; try reflexivity.
  apply IH.
Qed.

(** X19. The directory that the banner shows is never longer than 35
    characters: a path of at most 35 characters is shown as it is, a
    longer one as three dots and its last 32 characters. *)
Theorem banner_cwd_fits (cwd : string) :
  Str.len (Cli.banner_cwd cwd) <= 35
  /\ (Str.len cwd <= 35 -> Cli.banner_cwd cwd = cwd)
  /\ (35 < Str.len cwd ->
      Cli.banner_cwd cwd = "..." +:+ Str.drop (String.length cwd - 32) cwd
      /\ Str.len (Cli.banner_cwd cwd) = 35).
Proof.
  unfold Cli.banner_cwd.
  destruct (Z.ltb_spec 35 (Str.len cwd)) as [Hlong|Hshort].
  - assert (Hs : Str.slice cwd (-32) (Str.len cwd)
                 = Str.drop (String.length cwd - 32) cwd).
    { unfold Str.slice, Str.clamp.
      change (-32 <? 0) with true. cbv iota.
      assert (E : (Str.len cwd <? 0) = false) by (apply Z.ltb_ge; lia).
      rewrite E. rewrite Z.min_id, Z.max_r by lia.
      replace (Z.to_nat (-32 + Str.len cwd)) with (String.length cwd - 32)%nat
        by (unfold Str.len; lia).
      apply take_all. rewrite drop_length. unfold Str.len in *. lia. }
    rewrite Hs.
    assert (Hl : Str.len ("..." +:+ Str.drop (String.length cwd - 32) cwd) = 35).
    { rewrite len_app. unfold Str.len in *. rewrite drop_length.
      simpl String.length. lia. }
    split; [lia|]. split; [intros ?; lia|]. intros _. split; [reflexivity|exact Hl].
  - split; [exact Hshort|]. split; [reflexivity|]. intros ?. lia.
Qed.

(** ** Copying the last event *)

(** A line whose first word is [copy] or [c], in any case, goes to the
    copy branch. *)
Lemma turn_copy (w : World) (st : Cli.Session) (raw first : string)
    (more : list string) (rest : list Cli.prompt_result) :
  Str.split (Str.strip raw) = first :: more ->
  Str.lower first = "copy" \/ Str.lower first = "c" ->
  Cli.turn w st (Cli.Line raw :: rest) =
  {| Cli.trace := (Cli.copy w st (Str.join " " more)).1; Cli.after := st;
     Cli.pending := rest; Cli.ctl := (Cli.copy w st (Str.join " " more)).2 |}.
Proof.
  intros Hsplit Haction. unfold Cli.turn.
  rewrite (split_nonempty _ _ _ Hsplit), Hsplit.
  destruct Haction as [-> | ->]; cbn;
    destruct (Cli.copy w st (Str.join " " more)); reflexivity.
Qed.

(** X21. The command [copy] (or [c]) never changes the session and reads
    no further input. Without a last event it reports that and touches
    nothing. With one it makes the text of the event, as XML exactly when
    the words after the command, joined and in lower case, are [xml], and
    as JSON for any other argument or none. When [dict_to_xml] raises on
    the event the loop ends there, and nothing is handed to the
    clipboard. Otherwise the text is handed to the clipboard once, the
    loop goes on, and the turn reports success exactly when the clipboard
    tool returns code 0. *)
Theorem copy_command_format (w : World) (st : Cli.Session) (raw first : string)
    (more : list string) (rest : list Cli.prompt_result) :
  Str.split (Str.strip raw) = first :: more ->
  Str.lower first = "copy" \/ Str.lower first = "c" ->
  let args := Str.join " " more in
  let xml := String.eqb (Str.lower args) "xml" in
  let s := Cli.turn w st (Cli.Line raw :: rest) in
  Cli.after s = st
  /\ Cli.pending s = rest
  /\ match Cli.last_event st with
     | None => Cli.trace s = [Cli.Say Cli.NoEventToCopy]
               /\ Cli.ctl s = Cli.Continue
     | Some event =>
         if xml && negb (dict_to_xml_returns w (Cli.model_dump event)) then
           Cli.trace s = [] /\ Cli.ctl s = Cli.Crash
         else
           Cli.ctl s = Cli.Continue
           /\ exists said,
                Cli.trace s = [Cli.CallClip xml event; Cli.Say said]
                /\ ((exists fmt, said = Cli.Copied fmt)
                    <-> clip w xml (Cli.model_dump event) = Some 0)
     end.
Proof.
  intros Hsplit Haction args xml s. subst s.
  rewrite (turn_copy w st raw first more rest Hsplit Haction).
  split; [reflexivity|]. split; [reflexivity|].
  unfold Cli.copy. fold args. cbn [Cli.trace Cli.ctl].
  destruct (Cli.last_event st) as [event|]; [|split; reflexivity].
  assert (Hxml : String.eqb (if String.eqb args "" then "json" else Str.lower args) "xml"
                 = xml).
  { subst xml. destruct (String.eqb_spec args "") as [->|]; reflexivity. }
  rewrite Hxml.
  destruct (xml && negb (dict_to_xml_returns w (Cli.model_dump event)));
    [split; reflexivity|].
  split; [reflexivity|]. cbn [fst].
  destruct (clip w xml (Cli.model_dump event)) as [code|].
  - destruct (Z.eqb_spec code 0) as [->|Hne].
    + eexists. split; [reflexivity|]. split; [reflexivity|eauto].
    + eexists. split; [reflexivity|].
      split; [intros [fmt H]; discriminate|intros [= H]; contradiction].
  - eexists. split; [reflexivity|].
    split; [intros [fmt H]; discriminate|discriminate].
Qed.

Lemma copy_command_format_witness :
  Cli.trace (Cli.turn offline session_with_event [Cli.Line "Copy  XML"])
  = [Cli.CallClip true (Cli.fallback example_page); Cli.Say Cli.FailedCopy].
Proof.
  destruct (copy_command_format offline session_with_event "Copy  XML" "Copy"
              ["XML"] [] eq_refl (or_introl eq_refl)) as (_ & _ & _ & said & H & _).
  rewrite H. vm_compute in H. injection H as <-. reflexivity.
Defined.

(** ** When scraper.py dies *)

(** X22. [main] of scraper.py ends in an exception that nothing catches
    exactly when [--post] is given, the scrape succeeds, the health check
    answers 200, the post goes through, and the decoded response is not
    an object (then [data.get] fails); in every other case it ends with
    an exit status. An unhealthy or unreachable service never gets the
    post: the outcome does not depend on what the post would answer. *)
Theorem main_raises_only_on_odd_response (w : World) (url : string) (json : bool) :
  (forall post,
     Scraper.main w url post json = Raises <->
     post = true
     /\ exists page r,
          Scraper.scrape w url = Some page
          /\ health w = Some 200
          /\ http_post w (Scraper.payload w (Scraper.analyze w page)) = Some r
          /\ forall d, r <> PyDict d)
  /\ (health w <> Some 200 ->
      forall p post,
        Scraper.main (with_service w (health w) p) url post json
        = Scraper.main w url post json).
Proof.
  split.
  - intros post. unfold Scraper.main, Scraper.post_to_blockchain.
    destruct (Scraper.scrape w url) as [page|].
    2: { split; [discriminate|intros (_ & ? & ? & H & _); discriminate]. }
    destruct post.
    2: { split; [discriminate|intros [H _]; discriminate]. }
    destruct (health w) as [status|].
    2: { split; [discriminate|intros (_ & ? & ? & _ & H & _); discriminate]. }
    destruct (Z.eqb_spec status 200) as [->|Hne]; simpl.
    2: { split; [discriminate|intros (_ & ? & ? & _ & [= H] & _); contradiction]. }
    destruct (http_post w _) as [r|] eqn:Hpost.
    2: { split; [discriminate|].
         intros (_ & page' & r & [= <-] & _ & H & _). congruence. }
    destruct r as [| | | | | |d];
      try (split; [intros _; split; [reflexivity|];
                   exists page; eexists; repeat split; eauto; discriminate
                  |reflexivity]).
    split; [discriminate|].
    intros (_ & page' & r & [= <-] & _ & H & Hno).
    rewrite Hpost in H. injection H as <-. exfalso. exact (Hno d eq_refl).
  - intros Hbad p post.
    unfold Scraper.main, Scraper.post_to_blockchain, Scraper.post_stderr.
    change (Scraper.scrape (with_service w (health w) p) url)
      with (Scraper.scrape w url).
    destruct (Scraper.scrape w url) as [page|]; [|reflexivity].
    change (Scraper.analyze (with_service w (health w) p) page)
      with (Scraper.analyze w page).
    change (health (with_service w (health w) p)) with (health w).
    destruct post; [|reflexivity].
    destruct (health w) as [status|]; [|reflexivity].
    destruct (Z.eqb_spec status 200) as [->|Hne]; [contradiction|reflexivity].
Qed.
